(** * Airline ticket reservation system ([airline.py])

    A shallow embedding of the reservation store ([AirlineSystem]), of its
    records ([Passenger]) and of the recursive name search, followed by the
    properties of the specification that were checked against it.

    Conventions of the embedding.
    - A Python [str] is a [string]; a character stands for the code point of
      the same number, so the strings covered are those over U+0000..U+00FF.
    - The wall clock and the file system are explicit: a [World] carries the
      readings [datetime.now()] will return and the files by path.
    - A method is a computation in the monad [Py]: it takes the world and
      gives back an outcome (a value or a raised exception) and the world
      it leaves behind.
    - [json.load] and [json.dump] are library code: a file is represented by
      what [json.load] makes of its text, either a decode error or the
      value it parses to. *)

From Stdlib Require Import Ascii String NArith Lia DecimalString.
From Equations Require Import Equations.
From Equations.Prop Require Import Logic.
From stdpp Require Import gmap strings list fin_maps sorting.

Local Open Scope string_scope.

(** * Python string operations used by the program *)

Module PyStr.

Definition ord (c : ascii) : N := N_of_ascii c.

Definition in_range (lo hi : N) (c : ascii) : bool :=
  ((lo <=? ord c) && (ord c <=? hi))%N.

(** [str.lower] on one code point below 256: the upper-case letters are
    A-Z and U+00C0..U+00DE without the multiplication sign U+00D7, and
    each one lowers to the code point 32 above it. *)
Definition is_upper (c : ascii) : bool :=
  in_range 65 90 c || (in_range 192 222 c && negb (ord c =? 215)%N).

Definition lower_char (c : ascii) : ascii :=
  if is_upper c then ascii_of_N (ord c + 32) else c.

Fixpoint lower (s : string) : string :=
  match s with
  | EmptyString => EmptyString
  | String c s' => String (lower_char c) (lower s')
  end.

(** [str.isspace] on one code point below 256. *)
Definition isspace (c : ascii) : bool :=
  in_range 9 13 c || in_range 28 32 c
  || (ord c =? 133)%N || (ord c =? 160)%N.

Fixpoint lstrip (s : string) : string :=
  match s with
  | EmptyString => EmptyString
  | String c s' => if isspace c then lstrip s' else s
  end.

Fixpoint rstrip (s : string) : string :=
  match s with
  | EmptyString => EmptyString
  | String c s' =>
      match rstrip s' with
      | EmptyString => if isspace c then EmptyString else String c EmptyString
      | r => String c r
      end
  end.

(** [s.strip()] *)
Definition strip (s : string) : string := rstrip (lstrip s).

(** Truth value of a string: [bool(s)], false exactly on the empty one. *)
Definition truthy (s : string) : bool :=
  match s with EmptyString => false | String _ _ => true end.

(** [sub in s] *)
Fixpoint contains (sub s : string) : bool :=
  String.prefix sub s
  || match s with
     | EmptyString => false
     | String _ s' => contains sub s'
     end.

(** [a < b] on strings: lexicographic on code points. *)
Definition lt (a b : string) : bool := String.ltb a b.

(** The character class [[A-Z0-9]] of the passport pattern. *)
Definition upper_or_digit (c : ascii) : bool :=
  in_range 65 90 c || in_range 48 57 c.

(** [n] characters of the class, then the rest of the subject. *)
Fixpoint match_class (n : nat) (s : string) : option string :=
  match n with
  | O => Some s
  | S n' =>
      match s with
      | String c s' => if upper_or_digit c then match_class n' s' else None
      | EmptyString => None
      end
  end.

(** The newline, U+000A. *)
Definition newline : string := String (ascii_of_N 10) EmptyString.

(** [$] without [re.MULTILINE]: succeeds at the end of the subject and
    also just before a newline that is the last character. *)
Definition at_dollar (rest : string) : bool :=
  match rest with
  | EmptyString => true
  | String c EmptyString => (ord c =? 10)%N
  | _ => false
  end.

(** [bool(re.match(r'^[A-Z0-9]{9}$', s))] *)
Definition re_match_passport (s : string) : bool :=
  match match_class 9 s with
  | Some rest => at_dollar rest
  | None => false
  end.

(** Decimal rendering with zero padding to [width] digits, as the
    [strftime] fields [%Y %m %d %H %M %S] print their numbers. *)
Definition digit (n : nat) : ascii := ascii_of_nat (48 + n mod 10).

Fixpoint zero_pad (width n : nat) : string :=
  match width with
  | O => EmptyString
  | S w => zero_pad w (n / 10) ++ String (digit n) EmptyString
  end.

End PyStr.

Example lower_Alice : PyStr.lower "Alice" = "alice".
Proof. reflexivity. Qed.

Example strip_blank :
  PyStr.strip ("  " ++ String (ascii_of_N 9) PyStr.newline) = "".
Proof. reflexivity. Qed.

Example strip_inner : PyStr.strip "  Al Bo  " = "Al Bo".
Proof. reflexivity. Qed.

Example contains_alic : PyStr.contains "alic" "malice" = true.
Proof. reflexivity. Qed.

Example zero_pad_7 : PyStr.zero_pad 2 7 = "07" /\ PyStr.zero_pad 4 2024 = "2024".
Proof. split; reflexivity. Qed.

(** * Values read from and written to the reservations file *)

(** What [json.load] returns (and [json.dump] accepts): [None], booleans,
    numbers (kept as their literal), strings, lists, and dicts with their
    members in insertion order. *)
#[warnings="-register-all"]
Inductive json : Type :=
| JNull
| JBool (b : bool)
| JNum (literal : string)
| JStr (s : string)
| JArr (items : list json)
| JObj (members : list (string * json)).

(** A file, seen through [json.load]: text that does not decode, or text
    that decodes to [v]. [json.dump v] writes a text of the second kind
    for the same [v]. *)
Inductive file_content : Type :=
| NotJson (text : string)
| JsonText (v : json).

(** Exceptions the modelled code can raise. [NonStringField] is not a Python
    exception: it marks a file whose record holds a non-string under one of
    the four keys read at load time. The source would store that value in
    the [Passenger] as it is; the embedding types the fields as strings and
    stops there. *)
Inductive exn : Type :=
| ValueError (msg : string)
| JSONDecodeError
| TypeError
| KeyError (key : string)
| FileNotFoundError
| NonStringField (key : string).

(** A reading of [datetime.now()]. *)
Record DateTime : Type := mkDateTime {
  year : nat; month : nat; day : nat;
  hour : nat; minute : nat; second : nat;
  microsecond : nat
}.

(** [t.strftime('%Y%m%d%H%M%S')] *)
Definition strftime (t : DateTime) : string :=
  PyStr.zero_pad 4 (year t) ++ PyStr.zero_pad 2 (month t)
  ++ PyStr.zero_pad 2 (day t) ++ PyStr.zero_pad 2 (hour t)
  ++ PyStr.zero_pad 2 (minute t) ++ PyStr.zero_pad 2 (second t).

(** The environment of the program: the clock, given by the reading each
    successive call of [datetime.now()] returns together with the number of
    calls made so far, and the files by path. *)
Record World : Type := mkWorld {
  clock : nat -> DateTime;
  reads : nat;
  files : gmap string file_content
}.

(** * Computations: state of the world and exceptions *)

Inductive Outcome (A : Type) : Type :=
| Return (a : A)
| Raise (e : exn).
Arguments Return {A} a.
Arguments Raise {A} e.

Definition Py (A : Type) : Type := World -> Outcome A * World.

Definition ret {A} (a : A) : Py A := fun w => (Return a, w).

Definition raise {A} (e : exn) : Py A := fun w => (Raise e, w).

Definition bind {A B} (c : Py A) (k : A -> Py B) : Py B :=
  fun w =>
    match c w with
    | (Return a, w') => k a w'
    | (Raise e, w') => (Raise e, w')
    end.

Notation "'let*' x ':=' c 'in' k" := (bind c (fun x => k))
  (at level 10, x pattern, c at level 100, k at level 200).

(** [try: c except JSONDecodeError: h] *)
Definition try_except_JSONDecodeError {A} (c : Py A) (h : Py A) : Py A :=
  fun w =>
    match c w with
    | (Raise JSONDecodeError, w') => h w'
    | r => r
    end.

(** [datetime.now()]: the next reading of the clock. *)
Definition tick (n : nat) (w : World) : World :=
  {| clock := clock w; reads := n + reads w; files := files w |}.

Definition datetime_now : Py DateTime :=
  fun w => (Return (clock w (reads w)), tick 1 w).

(** [os.path.exists(path)] *)
Definition os_path_exists (path : string) : Py bool :=
  fun w => (Return (bool_decide (is_Some (files w !! path))), w).

(** [with open(path, 'r') as f: json.load(f)] *)
Definition json_load (path : string) : Py json :=
  fun w =>
    match files w !! path with
    | Some (JsonText v) => (Return v, w)
    | Some (NotJson _) => (Raise JSONDecodeError, w)
    | None => (Raise FileNotFoundError, w)
    end.

(** [json.dump(v, f, indent=4)] for [f] opened for writing on [path]: the
    file is replaced as a whole. *)
Definition write_file (path : string) (c : file_content) (w : World) : World :=
  {| clock := clock w; reads := reads w; files := <[path := c]> (files w) |}.

Definition json_dump (v : json) (path : string) : Py unit :=
  fun w => (Return tt, write_file path (JsonText v) w).

(** [for d in data]: a list gives its items, a dict its keys, a string its
    characters; the other values are not iterable. *)
Fixpoint chars (s : string) : list json :=
  match s with
  | EmptyString => []
  | String c s' => JStr (String c EmptyString) :: chars s'
  end.

Definition py_iter (data : json) : Py (list json) :=
  match data with
  | JArr items => ret items
  | JObj members => ret (map (fun kv => JStr (fst kv)) members)
  | JStr s => ret (chars s)
  | JNull | JBool _ | JNum _ => raise TypeError
  end.

Fixpoint assoc (key : string) (members : list (string * json)) : option json :=
  match members with
  | [] => None
  | (k, v) :: rest => if String.eqb k key then Some v else assoc key rest
  end.

(** [d[key]] for a string [key]: only a dict can be subscripted by a
    string. *)
Definition subscript (d : json) (key : string) : Py json :=
  match d with
  | JObj members =>
      match assoc key members with
      | Some v => ret v
      | None => raise (KeyError key)
      end
  | _ => raise TypeError
  end.

(** The value under [key] as a field of a record of the embedding. *)
Definition field (d : json) (key : string) : Py string :=
  let* v := subscript d key in
  match v with
  | JStr s => ret s
  | _ => raise (NonStringField key)
  end.

(** [[f(x) for x in xs]] for an effectful [f], left to right. *)
Fixpoint for_each {A B} (f : A -> Py B) (xs : list A) : Py (list B) :=
  match xs with
  | [] => ret []
  | x :: xs' =>
      let* y := f x in
      let* ys := for_each f xs' in
      ret (y :: ys)
  end.

(** * [class Passenger] *)

Record Passenger : Type := mkPassenger {
  name : string;
  passport : string;
  flight_no : string;
  seat : string;
  booking_id : string
}.

#[global] Instance Passenger_eq_dec : EqDecision Passenger.
Proof. solve_decision. Defined.

(** [Passenger.generate_booking_id]: [BK] and the clock to the second. *)
Definition generate_booking_id : Py string :=
  let* t := datetime_now in
  ret ("BK" ++ strftime t).

(** [Passenger.__init__]: the booking id is always generated here; the
    constructor takes none. *)
Definition Passenger_init (name passport flight_no seat : string)
  : Py Passenger :=
  let* id := generate_booking_id in
  ret {| name := name; passport := passport; flight_no := flight_no;
         seat := seat; booking_id := id |}.

(** [Passenger.to_dict] *)
Definition to_dict (p : Passenger) : json :=
  JObj [ ("booking_id", JStr (booking_id p));
         ("name", JStr (name p));
         ("passport", JStr (passport p));
         ("flight_no", JStr (flight_no p));
         ("seat", JStr (seat p)) ].

(** * [class AirlineSystem] *)

Record AirlineSystem : Type := mkAirlineSystem {
  data_file : string;
  reservations : list Passenger;
  available_flights : list string;
  seats : list string
}.

Definition set_reservations (self : AirlineSystem) (rs : list Passenger)
  : AirlineSystem :=
  {| data_file := data_file self;
     reservations := rs;
     available_flights := available_flights self;
     seats := seats self |}.

(** [str(row)] *)
Definition str_of_nat (n : nat) : string :=
  NilZero.string_of_uint (Nat.to_uint n).

(** [[f"{row}{letter}" for row in range(1, 11) for letter in "ABCDEF"]] *)
Definition all_seats : list string :=
  row ← seq 1 10;
  letter ← list_ascii_of_string "ABCDEF";
  [str_of_nat row ++ String letter EmptyString].

Definition all_flights : list string := ["FL101"; "FL102"; "FL103"].

(** One record of the file to a [Passenger]: the four keys are read in the
    order of the call, the [booking_id] member of the record is not read. *)
Definition passenger_of_record (d : json) : Py Passenger :=
  let* n := field d "name" in
  let* p := field d "passport" in
  let* f := field d "flight_no" in
  let* s := field d "seat" in
  Passenger_init n p f s.

(** [AirlineSystem.load_reservations]. Only [json.JSONDecodeError] is
    caught; the assignment to [self.reservations] happens after the whole
    comprehension has been evaluated. *)
Definition load_reservations (self : AirlineSystem) : Py AirlineSystem :=
  let* present := os_path_exists (data_file self) in
  if present then
    try_except_JSONDecodeError
      (let* data := json_load (data_file self) in
       let* ds := py_iter data in
       let* rs := for_each passenger_of_record ds in
       ret (set_reservations self rs))
      (ret (set_reservations self []))
  else ret self.

(** [AirlineSystem.__init__] *)
Definition AirlineSystem_init (data_file : string) : Py AirlineSystem :=
  load_reservations
    {| data_file := data_file;
       reservations := [];
       available_flights := all_flights;
       seats := all_seats |}.

(** [AirlineSystem.save_reservations] *)
Definition save_reservations (self : AirlineSystem) : Py unit :=
  json_dump (JArr (map to_dict (reservations self))) (data_file self).

(** [AirlineSystem.validate_passport] *)
Definition validate_passport (passport : string) : bool :=
  PyStr.re_match_passport passport.

(** [any(r.seat == seat and r.flight_no == flight_no for r in ...)] *)
Definition seat_taken (rs : list Passenger) (flight seat_label : string)
  : bool :=
  existsb (fun r => String.eqb (seat r) seat_label
                    && String.eqb (flight_no r) flight) rs.

(** [AirlineSystem.book_ticket]: the new booking id and the store after the
    call. Every failure is a [ValueError], told apart by its message. *)
Definition book_ticket (self : AirlineSystem)
    (name passport flight_no seat : string) : Py (string * AirlineSystem) :=
  if negb (PyStr.truthy (PyStr.strip name)) then
    raise (ValueError "Name cannot be empty")
  else if negb (validate_passport passport) then
    raise (ValueError
             "Invalid passport number (9 alphanumeric characters required)")
  else if negb (bool_decide (flight_no ∈ available_flights self)) then
    raise (ValueError "Invalid flight number")
  else if negb (bool_decide (seat ∈ seats self)) then
    raise (ValueError "Invalid seat")
  else if seat_taken (reservations self) flight_no seat then
    raise (ValueError "Seat already booked")
  else
    let* passenger := Passenger_init name passport flight_no seat in
    let self' := set_reservations self (reservations self ++ [passenger]) in
    let* _ := save_reservations self' in
    ret (booking_id passenger, self').

(** [AirlineSystem.cancel_reservation] *)
Definition cancel_reservation (self : AirlineSystem) (id : string)
  : Py (bool * AirlineSystem) :=
  let initial_length := length (reservations self) in
  let self' :=
    set_reservations self
      (filter (fun r => booking_id r ≠ id) (reservations self)) in
  if decide (length (reservations self') < initial_length) then
    let* _ := save_reservations self' in
    ret (true, self')
  else ret (false, self').

(** [AirlineSystem.view_reservations] *)
Definition view_reservations (self : AirlineSystem) : list json :=
  map to_dict (reservations self).

Example all_seats_sample :
  length all_seats = 60 /\ take 7 all_seats = ["1A";"1B";"1C";"1D";"1E";"1F";"2A"]
  /\ last all_seats = Some "10F".
Proof. repeat split; reflexivity. Qed.

(** * [AirlineSystem.search_reservations] *)

(** The sort key, [lambda x: x.name.lower()]. *)
Definition sort_key (r : Passenger) : string := PyStr.lower (name r).

(** [list.sort(key=sort_key)]: the stable sort, which compares keys with
    [<] only. [r] goes in front of the first element whose key is not
    below its own, so it stays ahead of the later elements of equal key. *)
Fixpoint insert_by_key (r : Passenger) (rs : list Passenger) : list Passenger :=
  match rs with
  | [] => [r]
  | r' :: rest =>
      if PyStr.lt (sort_key r') (sort_key r)
      then r' :: insert_by_key r rest
      else r :: rs
  end.

Fixpoint sort_by_name (rs : list Passenger) : list Passenger :=
  match rs with
  | [] => []
  | r :: rest => insert_by_key r (sort_by_name rest)
  end.

(** How one activation of the method ends: with a [return] of a value, or
    with the tail call [return self.search_reservations(query, slice)]. *)
Inductive Step : Type :=
| Done (result : list Passenger)
| Again (query : string) (slice : list Passenger).

(** One activation on the list object [rs]: how it ends, and the contents
    of the list object afterwards (the sort is in place). [rs[mid]] is
    read with the head as default, which is never used as [mid] is within
    the list. *)
Definition search_body (query : string) (rs : list Passenger)
  : Step * list Passenger :=
  if negb (PyStr.truthy query) then (Done rs, rs)
  else
    match rs with
    | [] => (Done [], rs)
    | r0 :: _ =>
        let sorted := sort_by_name rs in
        let mid := length sorted / 2 in
        let at_mid := nth mid sorted r0 in
        let mid_name := PyStr.lower (name at_mid) in
        let query := PyStr.lower query in
        if String.eqb mid_name query then (Done [at_mid], sorted)
        else if decide (length sorted = 1) then
          (Done (if PyStr.contains query mid_name
                 then [nth 0 sorted r0] else []), sorted)
        else if PyStr.lt query mid_name then
          (Again query (take mid sorted), sorted)
        else
          (Again query (drop mid sorted), sorted)
    end.

(** The call chain with a bound on its depth: [None] when [fuel]
    activations were not enough. The slices are new list objects, so what
    the deeper activations do to them is seen by nobody else. *)
Fixpoint search_fuel (fuel : nat) (query : string) (rs : list Passenger)
  : option (list Passenger) :=
  match fuel with
  | O => None
  | S fuel' =>
      match fst (search_body query rs) with
      | Done result => Some result
      | Again query' slice => search_fuel fuel' query' slice
      end
  end.

(** ** The sort keeps the length, the slices are shorter *)

Lemma insert_by_key_length r rs :
  length (insert_by_key r rs) = S (length rs).
Proof.
  induction rs as [|r' rest IH]; simpl; [reflexivity|].
  destruct (PyStr.lt _ _); simpl; [rewrite IH|]; reflexivity.
Qed.

Lemma sort_by_name_length rs : length (sort_by_name rs) = length rs.
Proof.
  induction rs as [|r rest IH]; simpl; [reflexivity|].
  rewrite insert_by_key_length, IH. reflexivity.
Qed.

Lemma search_body_shrinks query rs query' slice :
  fst (search_body query rs) = Again query' slice ->
  length slice < length rs.
Proof.
  unfold search_body.
  destruct (PyStr.truthy query); cbn [negb]; [|discriminate].
  destruct rs as [|r0 rest]; [discriminate|].
  set (sorted := sort_by_name (r0 :: rest)).
  assert (Hlen : length sorted = S (length rest))
    by (subst sorted; rewrite sort_by_name_length; reflexivity).
  destruct (String.eqb _ _); [discriminate|].
  destruct (decide (length sorted = 1)) as [|Hne]; [discriminate|].
  change (length (r0 :: rest)) with (S (length rest)).
  rewrite <- Hlen. clearbody sorted.
  assert (Hmid : 1 <= length sorted / 2 < length sorted)
    by (split; [apply Nat.div_le_lower_bound | apply Nat.div_lt]; lia).
  revert Hmid. generalize (length sorted / 2). intros mid Hmid.
  destruct (PyStr.lt _ _); intros [= _ <-].
  - rewrite length_take. lia.
  - rewrite length_drop. lia.
Qed.

(** The recursive calls as a total function: the result of the method on a
    list object nobody else holds. *)
Equations? search_slice (query : string) (rs : list Passenger)
  : list Passenger by wf (length rs) lt :=
  search_slice query rs with inspect (fst (search_body query rs)) := {
    | exist _ (Done result) _ := result
    | exist _ (Again query' slice) H := search_slice query' slice }.
Proof. eapply search_body_shrinks; eassumption. Qed.

(** The method as the program calls it, [system.search_reservations(query)]:
    [reservations] defaults to [self.reservations], the same list object,
    so the store holds afterwards what the first activation left in it.
    Gives the result and the store after the call. *)
Definition search_reservations (self : AirlineSystem) (query : string)
  : list Passenger * AirlineSystem :=
  let '(step, rs') := search_body query (reservations self) in
  (match step with
   | Done result => result
   | Again query' slice => search_slice query' slice
   end,
   set_reservations self rs').

(** * Properties of the string operations *)

Lemma lt_irrefl s : PyStr.lt s s = false.
Proof.
  unfold PyStr.lt, String.ltb.
  assert (H : String.compare s s = Eq).
  { induction s as [|c s IH]; simpl; [reflexivity|].
    unfold Ascii.compare. rewrite N.compare_refl. exact IH. }
  rewrite H. reflexivity.
Qed.

Lemma lt_asym a b : PyStr.lt a b = true -> PyStr.lt b a = false.
Proof.
  unfold PyStr.lt, String.ltb. rewrite (String.compare_antisym a b).
  destruct (String.compare b a); simpl; intros H; congruence.
Qed.

Lemma truthy_lower s : PyStr.truthy (PyStr.lower s) = PyStr.truthy s.
Proof. destruct s; reflexivity. Qed.

Lemma truthy_true s : s <> "" <-> PyStr.truthy s = true.
Proof. destruct s; simpl; split; intros H; congruence. Qed.

(** * The sort is the stable sort on the lowered names *)

(** [a] may stand before [b] in a sorted list: the key of [b] is not below
    the key of [a]. *)
Definition key_le (a b : Passenger) : Prop :=
  PyStr.lt (sort_key b) (sort_key a) = false.

Lemma insert_by_key_perm r rs : insert_by_key r rs ≡ₚ r :: rs.
Proof.
  induction rs as [|r' rest IH]; simpl; [reflexivity|].
  destruct (PyStr.lt _ _); [|reflexivity].
  rewrite IH. apply Permutation_swap.
Qed.

Lemma sort_by_name_perm rs : sort_by_name rs ≡ₚ rs.
Proof.
  induction rs as [|r rest IH]; simpl; [reflexivity|].
  rewrite insert_by_key_perm, IH. reflexivity.
Qed.

Lemma insert_by_key_hd r rs :
  HdRel key_le r rs -> forall x, key_le r x ->
  HdRel key_le r (insert_by_key x rs).
Proof.
  intros Hhd x Hx. destruct rs as [|r' rest]; simpl.
  - constructor. exact Hx.
  - destruct (PyStr.lt _ _); constructor; [|exact Hx].
    inversion Hhd; assumption.
Qed.

Lemma insert_by_key_sorted r rs :
  Sorted key_le rs -> Sorted key_le (insert_by_key r rs).
Proof.
  induction 1 as [|r' rest Hs IH Hhd]; simpl.
  - repeat constructor.
  - destruct (PyStr.lt (sort_key r') (sort_key r)) eqn:Hlt.
    + constructor; [exact IH|].
      apply insert_by_key_hd; [exact Hhd|].
      unfold key_le. apply lt_asym. exact Hlt.
    + constructor; [constructor; assumption|].
      constructor. exact Hlt.
Qed.

Lemma sort_by_name_sorted rs : Sorted key_le (sort_by_name rs).
Proof.
  induction rs as [|r rest IH]; simpl; [constructor|].
  apply insert_by_key_sorted. exact IH.
Qed.

(** Stability: the records of one key keep their order. *)
Lemma insert_by_key_stable k r rs :
  filter (fun x => sort_key x = k) (insert_by_key r rs)
  = filter (fun x => sort_key x = k) (r :: rs).
Proof.
  induction rs as [|r' rest IH]; simpl; [reflexivity|].
  destruct (PyStr.lt (sort_key r') (sort_key r)) eqn:Hlt; [|reflexivity].
  rewrite (filter_cons _ r'), IH, !filter_cons.
  destruct (decide (sort_key r' = k)) as [E1|]; [|reflexivity].
  destruct (decide (sort_key r = k)) as [E2|]; [|reflexivity].
  rewrite E1, E2, lt_irrefl in Hlt. discriminate.
Qed.

Lemma sort_by_name_stable k rs :
  filter (fun x => sort_key x = k) (sort_by_name rs)
  = filter (fun x => sort_key x = k) rs.
Proof.
  induction rs as [|r rest IH]; simpl; [reflexivity|].
  rewrite insert_by_key_stable, !filter_cons, IH. reflexivity.
Qed.

(** * The name search *)

Lemma search_slice_step query rs :
  search_slice query rs =
  match fst (search_body query rs) with
  | Done result => result
  | Again query' slice => search_slice query' slice
  end.
Proof.
  simp search_slice. unfold inspect.
  generalize (@eq_refl _ (fst (search_body query rs))).
  generalize (fst (search_body query rs)) at 2 4 5.
  intros [result|query' slice] H; simp search_slice; reflexivity.
Qed.

(** A list of one record ends the chain. *)
Lemma search_body_singleton query r :
  exists result, fst (search_body query [r]) = Done result.
Proof.
  unfold search_body. destruct (PyStr.truthy query); cbn [negb].
  - cbn [sort_by_name insert_by_key length].
    destruct (String.eqb _ _); [eexists; reflexivity|].
    destruct (decide (1 = 1)); [eexists; reflexivity|congruence].
  - eexists; reflexivity.
Qed.

(** More activations than the list is long are enough. *)
Lemma search_fuel_enough fuel : forall query rs,
  length rs < fuel -> search_fuel fuel query rs = Some (search_slice query rs).
Proof.
  induction fuel as [|fuel IH]; intros query rs Hlen; [lia|].
  rewrite search_slice_step. cbn [search_fuel].
  destruct (fst (search_body query rs)) as [result|query' slice] eqn:Hstep;
    [reflexivity|].
  apply IH. apply search_body_shrinks in Hstep. lia.
Qed.

(** With a query that is not empty, an activation returns at most one
    record or calls on with a query that is not empty either. *)
Lemma search_body_small query rs :
  PyStr.truthy query = true ->
  match fst (search_body query rs) with
  | Done result => length result <= 1
  | Again query' _ => PyStr.truthy query' = true
  end.
Proof.
  intros Hq. unfold search_body. rewrite Hq. cbn [negb].
  destruct rs as [|r0 rest]; [simpl; lia|].
  destruct (String.eqb _ _); [simpl; lia|].
  destruct (decide _).
  - destruct (PyStr.contains _ _); simpl; lia.
  - destruct (PyStr.lt _ _); cbn [fst]; rewrite truthy_lower; exact Hq.
Qed.

Lemma search_slice_small query rs :
  PyStr.truthy query = true -> length (search_slice query rs) <= 1.
Proof.
  remember (length rs) as n eqn:Hn. revert query rs Hn.
  induction n as [n IH] using lt_wf_ind. intros query rs -> Hq.
  rewrite search_slice_step.
  pose proof (search_body_small query rs Hq) as Hsmall.
  destruct (fst (search_body query rs)) as [result|query' slice] eqn:Hstep;
    [exact Hsmall|].
  apply search_body_shrinks in Hstep.
  eapply IH; [exact Hstep|reflexivity|exact Hsmall].
Qed.

(** The midpoint is inside the sorted list. *)
Lemma midpoint_lookup r0 rest :
  let sorted := sort_by_name (r0 :: rest) in
  sorted !! (length sorted / 2) = Some (nth (length sorted / 2) sorted r0).
Proof.
  intros sorted.
  assert (Hlen : length sorted = S (length rest))
    by (subst sorted; rewrite sort_by_name_length; reflexivity).
  destruct (nth_lookup_or_length sorted (length sorted / 2) r0) as [H|H];
    [exact H|].
  pose proof (Nat.div_lt (length sorted) 2). lia.
Qed.

(** An activation whose midpoint carries the query returns that record
    alone. *)
Lemma search_body_exact query rs at_mid :
  PyStr.truthy query = true ->
  sort_by_name rs !! (length rs / 2) = Some at_mid ->
  PyStr.lower (name at_mid) = PyStr.lower query ->
  search_body query rs = (Done [at_mid], sort_by_name rs).
Proof.
  intros Hq Hmid Hname. unfold search_body. rewrite Hq. cbn [negb].
  destruct rs as [|r0 rest]; [discriminate|].
  cbv beta iota zeta. rewrite (sort_by_name_length (r0 :: rest)).
  rewrite (nth_lookup_Some _ _ r0 _ Hmid).
  rewrite Hname, String.eqb_refl. reflexivity.
Qed.

(** * Sample data *)

Definition store_of (rs : list Passenger) : AirlineSystem :=
  {| data_file := "reservations.json";
     reservations := rs;
     available_flights := all_flights;
     seats := all_seats |}.

Definition bob : Passenger :=
  {| name := "Bob"; passport := "B00000001"; flight_no := "FL101";
     seat := "1A"; booking_id := "BK20240102030405" |}.

Definition alice : Passenger :=
  {| name := "Alice"; passport := "A00000001"; flight_no := "FL101";
     seat := "1B"; booking_id := "BK20240102030507" |}.

Definition alice_lc : Passenger :=
  {| name := "alice"; passport := "A00000002"; flight_no := "FL102";
     seat := "2C"; booking_id := "BK20240102030611" |}.

Definition alice_uc : Passenger :=
  {| name := "ALICE"; passport := "A00000003"; flight_no := "FL103";
     seat := "10F"; booking_id := "BK20240102030742" |}.

(** * Effect of a search on the store *)

(** C2, as the code has it: the search keeps the store's records but not
    their order. After [search_reservations] the store holds the same
    records (a permutation of the list before), its file name, flights and
    seats are untouched, and the list is the one before when the query is
    empty and the list before sorted stably by lowered name otherwise. *)
Theorem search_store_effect (self : AirlineSystem) (query : string) :
  let self' := snd (search_reservations self query) in
  reservations self' =
    (if PyStr.truthy query then sort_by_name (reservations self)
     else reservations self)
  /\ reservations self' ≡ₚ reservations self
  /\ data_file self' = data_file self
  /\ available_flights self' = available_flights self
  /\ seats self' = seats self.
Proof.
  cbv zeta.
  assert (Hsnd : snd (search_body query (reservations self)) =
                 if PyStr.truthy query then sort_by_name (reservations self)
                 else reservations self).
  { unfold search_body. destruct (PyStr.truthy query); cbn [negb];
      [|reflexivity].
    destruct (reservations self) as [|r0 rest]; [reflexivity|].
    cbv beta iota zeta.
    destruct (String.eqb _ _); [reflexivity|].
    destruct (decide _); [reflexivity|].
    destruct (PyStr.lt _ _); reflexivity. }
  unfold search_reservations.
  destruct (search_body query (reservations self)) as [step rs'].
  cbn [snd set_reservations reservations data_file available_flights seats]
    in *.
  subst rs'. repeat split.
  destruct (PyStr.truthy query); [apply sort_by_name_perm|reflexivity].
Qed.

(** C2, as the specification states it, fails: searching a store that holds
    Bob before Alice leaves it holding Alice before Bob. *)
Lemma search_reorders_store :
  reservations (snd (search_reservations (store_of [bob; alice]) "zed"))
  <> reservations (store_of [bob; alice]).
Proof. vm_compute. discriminate. Qed.

(** * Results of a search *)

(** C8: when the query is not empty and the record at the midpoint
    ([length // 2]) of the list sorted by lowered name has the lowered
    query as its lowered name, the search returns that record alone,
    whatever other records carry; and in a store whose only record is
    named Alice, searching for alice returns that record. *)
Theorem search_midpoint_exact :
  (forall (self : AirlineSystem) (query : string) (at_mid : Passenger),
     query <> "" ->
     sort_by_name (reservations self) !! (length (reservations self) / 2)
       = Some at_mid ->
     PyStr.lower (name at_mid) = PyStr.lower query ->
     fst (search_reservations self query) = [at_mid])
  /\ (forall (self : AirlineSystem) (r : Passenger),
        reservations self = [r] -> name r = "Alice" ->
        fst (search_reservations self "alice") = [r]).
Proof.
  assert (Hgen : forall self query at_mid,
     query <> "" ->
     sort_by_name (reservations self) !! (length (reservations self) / 2)
       = Some at_mid ->
     PyStr.lower (name at_mid) = PyStr.lower query ->
     fst (search_reservations self query) = [at_mid]).
  { intros self query at_mid Hq Hmid Hname.
    unfold search_reservations.
    rewrite (search_body_exact query _ at_mid); auto.
    apply truthy_true. exact Hq. }
  split; [exact Hgen|].
  intros self r Hrs Hname. apply Hgen.
  - discriminate.
  - rewrite Hrs. reflexivity.
  - rewrite Hname. reflexivity.
Qed.

Lemma search_midpoint_exact_witness :
  "alice" <> ""
  /\ sort_by_name [bob; alice_lc; alice; alice_uc] !! (4 / 2) = Some alice_uc
  /\ PyStr.lower (name alice_uc) = PyStr.lower "alice"
  /\ fst (search_reservations (store_of [bob; alice_lc; alice; alice_uc])
            "alice") = [alice_uc].
Proof.
  split; [discriminate|]. split; [reflexivity|]. split; [reflexivity|].
  apply (proj1 search_midpoint_exact); [discriminate|reflexivity|reflexivity].
Defined.

(** C10: a search with a query that is not empty returns at most one
    record; the empty query returns the whole list of the store. *)
Theorem search_at_most_one :
  (forall (self : AirlineSystem) (query : string),
     query <> "" -> length (fst (search_reservations self query)) <= 1)
  /\ (forall self : AirlineSystem,
        fst (search_reservations self "") = reservations self).
Proof.
  split; [|reflexivity].
  intros self query Hq. apply truthy_true in Hq.
  unfold search_reservations.
  pose proof (search_body_small query (reservations self) Hq) as Hsmall.
  destruct (search_body query (reservations self)) as [[result|query' slice] rs'];
    cbn [fst] in *; [exact Hsmall|].
  apply search_slice_small. exact Hsmall.
Qed.

Lemma search_at_most_one_witness :
  "alic" <> ""
  /\ length (fst (search_reservations
                    (store_of [bob; alice_lc; alice; alice_uc]) "alic")) <= 1.
Proof.
  split; [discriminate|].
  apply (proj1 search_at_most_one). discriminate.
Defined.

(** * Termination of the search *)

(** C9: the search terminates. Every recursive call is on a list strictly
    shorter than the one of the calling activation, an activation on a
    list of one record makes no recursive call, and so a chain of more
    activations than the list is long always reaches a result. *)
Theorem search_terminates :
  (forall (query : string) (rs : list Passenger) query' slice,
     fst (search_body query rs) = Again query' slice ->
     length slice < length rs)
  /\ (forall (query : string) (rs : list Passenger),
        length rs = 1 -> exists result, fst (search_body query rs) = Done result)
  /\ (forall (query : string) (rs : list Passenger) (fuel : nat),
        length rs < fuel ->
        exists result, search_fuel fuel query rs = Some result).
Proof.
  split; [exact search_body_shrinks|]. split.
  - intros query [|r [|r' rest]] Hlen; try discriminate.
    apply search_body_singleton.
  - intros query rs fuel Hfuel. eexists.
    apply search_fuel_enough. exact Hfuel.
Qed.

Lemma search_terminates_witness :
  length [bob; alice_lc; alice; alice_uc] < 5
  /\ exists result,
       search_fuel 5 "zed" [bob; alice_lc; alice; alice_uc] = Some result.
Proof.
  split; [simpl; lia|].
  apply (proj2 (proj2 search_terminates)). simpl. lia.
Defined.

(** * Sample worlds *)

(** A clock that gives the listed readings and [final] ever after. *)
Definition clock_of (readings : list DateTime) (final : DateTime)
  : nat -> DateTime :=
  fun n => nth n readings final.

(** Two readings within the second 2024-01-02 03:04:05, then a reading
    on the next morning. *)
Definition busy_second : World :=
  {| clock := clock_of [mkDateTime 2024 1 2 3 4 5 120;
                        mkDateTime 2024 1 2 3 4 5 870]
                       (mkDateTime 2024 1 3 9 30 0 0);
     reads := 0;
     files := ∅ |}.

(** A booking in the evening and the next reading on the next morning. *)
Definition two_days : World :=
  {| clock := clock_of [mkDateTime 2024 1 2 21 15 40 0]
                       (mkDateTime 2024 1 3 9 30 0 0);
     reads := 0;
     files := ∅ |}.

(** * Booking *)

Lemma seat_taken_intro rs r :
  r ∈ rs -> seat_taken rs (flight_no r) (seat r) = true.
Proof.
  intros Hin. unfold seat_taken. apply existsb_exists.
  exists r. split; [apply list_elem_of_In; exact Hin|].
  rewrite !String.eqb_refl. reflexivity.
Qed.

(** C6: a booking whose fields are valid and whose flight and seat are
    those of a reservation in the store raises the [ValueError] of the
    taken seat ("Seat already booked", the specification's Conflict), and
    nothing is changed. *)
Theorem book_taken_seat_conflict
    (self : AirlineSystem) (nm pp flight seat_label : string)
    (r : Passenger) (w : World) :
  PyStr.strip nm <> "" ->
  validate_passport pp = true ->
  flight ∈ available_flights self ->
  seat_label ∈ seats self ->
  r ∈ reservations self ->
  flight_no r = flight ->
  seat r = seat_label ->
  book_ticket self nm pp flight seat_label w
  = (Raise (ValueError "Seat already booked"), w).
Proof.
  intros Hname Hpass Hflight Hseat Hin <- <-.
  unfold book_ticket.
  apply truthy_true in Hname. rewrite Hname, Hpass.
  rewrite !bool_decide_eq_true_2 by assumption.
  rewrite (seat_taken_intro _ _ Hin). reflexivity.
Qed.

Lemma book_taken_seat_conflict_witness :
  book_ticket (store_of [bob; alice]) "Carol" "C00000001" "FL101" "1B"
    busy_second
  = (Raise (ValueError "Seat already booked"), busy_second).
Proof.
  apply (book_taken_seat_conflict _ _ _ _ _ alice).
  - discriminate.
  - reflexivity.
  - compute_done.
  - compute_done.
  - compute_done.
  - reflexivity.
  - reflexivity.
Defined.

(** * Passport validation *)

(** Every character of [s] is an upper-case letter A-Z or a digit 0-9. *)
Fixpoint all_upper_or_digit (s : string) : bool :=
  match s with
  | EmptyString => true
  | String c s' => PyStr.upper_or_digit c && all_upper_or_digit s'
  end.

Lemma append_cons c (p r : string) : String c p ++ r = String c (p ++ r).
Proof. reflexivity. Qed.

Lemma append_empty_r (s : string) : s ++ "" = s.
Proof.
  induction s as [|c s IH]; [reflexivity|].
  rewrite append_cons, IH. reflexivity.
Qed.

Lemma match_class_spec n : forall s rest,
  PyStr.match_class n s = Some rest <->
  exists p, s = p ++ rest /\ String.length p = n
            /\ all_upper_or_digit p = true.
Proof.
  induction n as [|n IH]; intros s rest; simpl.
  - split.
    + intros [= ->]. exists "". repeat split.
    + intros ([|c p] & -> & Hlen & _); [reflexivity|discriminate].
  - destruct s as [|c s'].
    + split; [discriminate|].
      intros ([|c p] & Heq & Hlen & _); discriminate.
    + destruct (PyStr.upper_or_digit c) eqn:Hc.
      * rewrite IH. split.
        -- intros (p & -> & Hlen & Hall). exists (String c p).
           simpl. rewrite Hc, Hall, Hlen. repeat split.
        -- intros ([|c' p] & Heq & Hlen & Hall); [discriminate|].
           rewrite append_cons in Heq. simpl in *.
           injection Heq as -> ->. injection Hlen as Hlen.
           apply andb_true_iff in Hall as [_ Hall].
           exists p. repeat split; assumption.
      * split; [discriminate|].
        intros ([|c' p] & Heq & Hlen & Hall); [discriminate|].
        rewrite append_cons in Heq. simpl in *. injection Heq as -> ->.
        rewrite Hc in Hall. discriminate.
Qed.

Lemma at_dollar_spec rest :
  PyStr.at_dollar rest = true <-> rest = "" \/ rest = PyStr.newline.
Proof.
  destruct rest as [|c [|c' rest]]; simpl.
  - split; [left; reflexivity|reflexivity].
  - unfold PyStr.ord, PyStr.newline. rewrite N.eqb_eq. split.
    + intros H. right. rewrite <- H, ascii_N_embedding. reflexivity.
    + intros [H|H]; [discriminate|]. injection H as ->. reflexivity.
  - split; [discriminate|]. intros [H|H]; discriminate.
Qed.

(** What the pattern accepts: nine characters of the class, and nothing
    or one newline after them. *)
Lemma validate_passport_spec s :
  validate_passport s = true <->
  exists p, String.length p = 9 /\ all_upper_or_digit p = true
            /\ (s = p \/ s = p ++ PyStr.newline).
Proof.
  unfold validate_passport, PyStr.re_match_passport. split.
  - destruct (PyStr.match_class 9 s) as [rest|] eqn:Hm; [|discriminate].
    apply match_class_spec in Hm as (p & -> & Hlen & Hall).
    intros [-> | ->]%at_dollar_spec; exists p; repeat split; auto.
    left. apply append_empty_r.
  - intros (p & Hlen & Hall & Hs).
    assert (Hm : exists rest, PyStr.match_class 9 s = Some rest
                              /\ PyStr.at_dollar rest = true).
    { destruct Hs as [-> | ->].
      - exists "". split; [|reflexivity]. apply match_class_spec.
        exists p. repeat split; auto. symmetry. apply append_empty_r.
      - exists PyStr.newline. split; [|reflexivity]. apply match_class_spec.
        exists p. repeat split; auto. }
    destruct Hm as (rest & -> & Hd). exact Hd.
Qed.

(** The examples of the specification: four characters are rejected with
    the [ValueError] of the passport, nine characters of the class pass. *)
Lemma passport_examples (w : World) :
  book_ticket (store_of []) "Ann" "AB12" "FL101" "1A" w
  = (Raise (ValueError
       "Invalid passport number (9 alphanumeric characters required)"), w)
  /\ validate_passport "ABCDEFGH1" = true
  /\ validate_passport "ABCDEFGh1" = false
  /\ validate_passport "ABCDEFGH12" = false.
Proof. repeat split; reflexivity. Qed.

(** C5, where the code departs from it: a string of ten characters, nine
    of the class followed by a newline, passes [validate_passport], and
    [book_ticket] books with it. *)
Theorem passport_with_newline_accepted :
  let pp := "ABCDEFGH1" ++ PyStr.newline in
  String.length pp = 10
  /\ validate_passport pp = true
  /\ fst (book_ticket (store_of []) "Ann" pp "FL101" "1A" two_days)
     = Return ("BK20240102211540",
               store_of [ {| name := "Ann"; passport := pp;
                             flight_no := "FL101"; seat := "1A";
                             booking_id := "BK20240102211540" |} ]).
Proof. repeat split; vm_compute; reflexivity. Qed.

(** * Cancellation *)

Lemma set_reservations_same (self : AirlineSystem) :
  set_reservations self (reservations self) = self.
Proof. destruct self; reflexivity. Qed.

Lemma filter_keeps_all (id : string) (rs : list Passenger) :
  (forall r, r ∈ rs -> booking_id r <> id) ->
  filter (fun r => booking_id r ≠ id) rs = rs.
Proof.
  induction rs as [|r rest IH]; intros Hall; [reflexivity|].
  rewrite filter_cons_True by (apply Hall; left).
  rewrite IH; [reflexivity|]. intros r' Hin. apply Hall. right. exact Hin.
Qed.

Lemma filter_drops_one (id : string) (before after : list Passenger) r :
  booking_id r = id ->
  (forall r', r' ∈ (before ++ after)%list -> booking_id r' <> id) ->
  filter (fun r => booking_id r ≠ id) (before ++ r :: after)%list
  = (before ++ after)%list.
Proof.
  intros Hid Hothers.
  rewrite filter_app, filter_cons_False by (intros H; apply H; exact Hid).
  rewrite <- filter_app. apply filter_keeps_all. exact Hothers.
Qed.

(** What [cancel_reservation] does in general: every record that carries
    the id is dropped, and the file is rewritten when one was. *)
Lemma cancel_reservation_filter (self : AirlineSystem) (id : string) (w : World) :
  let kept := filter (fun r => booking_id r ≠ id) (reservations self) in
  cancel_reservation self id w =
  if decide (length kept < length (reservations self))
  then (Return (true, set_reservations self kept),
        write_file (data_file self) (JsonText (JArr (map to_dict kept))) w)
  else (Return (false, set_reservations self kept), w).
Proof.
  cbv zeta. unfold cancel_reservation.
  cbn [reservations set_reservations].
  destruct (decide _); reflexivity.
Qed.

(** C7, as the code has it. An id that no reservation carries: [false],
    store and files as before. An id that exactly one reservation carries:
    [true], the store is the one before without that record, the others in
    their order, and the file holds the new list. *)
Theorem cancel_reservation_effect :
  (forall (self : AirlineSystem) (id : string) (w : World),
     (forall r, r ∈ reservations self -> booking_id r <> id) ->
     cancel_reservation self id w = (Return (false, self), w))
  /\ (forall (self : AirlineSystem) (id : string) (w : World)
             (before after : list Passenger) (r : Passenger),
        reservations self = (before ++ r :: after)%list ->
        booking_id r = id ->
        (forall r', r' ∈ (before ++ after)%list -> booking_id r' <> id) ->
        cancel_reservation self id w
        = (Return (true, set_reservations self (before ++ after)),
           write_file (data_file self)
             (JsonText (JArr (map to_dict (before ++ after)))) w)).
Proof.
  split.
  - intros self id w Hnone. rewrite cancel_reservation_filter. cbv zeta.
    rewrite filter_keeps_all by exact Hnone.
    rewrite set_reservations_same.
    destruct (decide _); [lia|reflexivity].
  - intros self id w before after r Hrs Hid Hothers.
    rewrite cancel_reservation_filter. cbv zeta.
    rewrite Hrs, filter_drops_one by assumption.
    destruct (decide _) as [|Hge]; [reflexivity|].
    exfalso. apply Hge. rewrite !length_app. simpl. lia.
Qed.

Lemma cancel_reservation_effect_witness :
  cancel_reservation (store_of [bob; alice; alice_lc]) "BK20240102030507"
    busy_second
  = (Return (true, store_of [bob; alice_lc]),
     write_file "reservations.json"
       (JsonText (JArr (map to_dict [bob; alice_lc]))) busy_second).
Proof.
  apply (proj2 cancel_reservation_effect
           (store_of [bob; alice; alice_lc]) "BK20240102030507" busy_second
           [bob] [alice_lc] alice).
  - reflexivity.
  - reflexivity.
  - intros r' Hin. simpl in Hin.
    apply list_elem_of_In in Hin. simpl in Hin.
    destruct Hin as [<-|[<-|[]]]; discriminate.
Defined.

(** Two records of one booking id, as two bookings within one second
    leave them (see [two_bookings_value] below). *)
Definition ann_0405 : Passenger :=
  {| name := "Ann"; passport := "A00000001"; flight_no := "FL101";
     seat := "1A"; booking_id := "BK20240102030405" |}.

Definition ben_0405 : Passenger :=
  {| name := "Ben"; passport := "B00000002"; flight_no := "FL101";
     seat := "1C"; booking_id := "BK20240102030405" |}.

(** C7, as the specification states it, fails where two reservations carry
    the id: the cancellation returns [true] and removes both, so the store
    is two records shorter, not one. *)
Lemma cancel_removes_every_match :
  fst (cancel_reservation (store_of [ann_0405; ben_0405; alice])
         "BK20240102030405" busy_second)
  = Return (true, store_of [alice])
  /\ length (reservations (store_of [alice])) + 1
     <> length (reservations (store_of [ann_0405; ben_0405; alice])).
Proof. split; [vm_compute; reflexivity|simpl; lia]. Qed.

(** * Loading *)

(** The store [AirlineSystem(path)] starts from before it loads. *)
Definition fresh_store (path : string) : AirlineSystem :=
  {| data_file := path; reservations := [];
     available_flights := all_flights; seats := all_seats |}.

(** A file that is absent leaves the store empty. *)
Lemma init_no_file (path : string) (w : World) :
  files w !! path = None ->
  AirlineSystem_init path w = (Return (fresh_store path), w).
Proof.
  intros Hfile.
  unfold AirlineSystem_init, load_reservations, bind, os_path_exists.
  cbn [data_file]. rewrite Hfile.
  rewrite bool_decide_eq_false_2 by (intros [c Hc]; discriminate).
  reflexivity.
Qed.

(** C3, as the code has it: over a file whose text is not JSON, the
    constructor returns a store with no reservations, raises nothing and
    leaves the world as it was. *)
Theorem load_not_json_starts_empty
    (path text : string) (w : World) :
  files w !! path = Some (NotJson text) ->
  AirlineSystem_init path w = (Return (fresh_store path), w).
Proof.
  intros Hfile.
  unfold AirlineSystem_init, load_reservations, bind, os_path_exists.
  cbn [data_file]. rewrite Hfile.
  rewrite bool_decide_eq_true_2 by (eexists; reflexivity).
  unfold try_except_JSONDecodeError, json_load. cbn [data_file].
  rewrite Hfile. reflexivity.
Qed.

(** A world whose reservations file holds [c]. *)
Definition disk_with (c : file_content) : World :=
  {| clock := clock busy_second; reads := 0;
     files := {[ "reservations.json" := c ]} |}.

Lemma load_not_json_starts_empty_witness :
  AirlineSystem_init "reservations.json" (disk_with (NotJson "[{"))
  = (Return (fresh_store "reservations.json"), disk_with (NotJson "[{")).
Proof.
  apply (load_not_json_starts_empty "reservations.json" "[{").
  vm_compute. reflexivity.
Defined.

(** C3, as the specification states it, fails on a file that is JSON but
    not an array of reservation records: over the text [[{}]] the
    constructor raises [KeyError], over [{"a": 1}] and over [7] it raises
    [TypeError]. *)
Lemma load_wrong_shape_raises :
  fst (AirlineSystem_init "reservations.json"
         (disk_with (JsonText (JArr [JObj []]))))
  = Raise (KeyError "name")
  /\ fst (AirlineSystem_init "reservations.json"
            (disk_with (JsonText (JObj [("a", JNum "1")]))))
     = Raise TypeError
  /\ fst (AirlineSystem_init "reservations.json"
            (disk_with (JsonText (JNum "7"))))
     = Raise TypeError.
Proof. repeat split; vm_compute; reflexivity. Qed.

(** What loading makes of the records a store saved: each record with
    its four fields and with the booking id of the moment it is loaded,
    the [k]-th reading of the clock for the first one and the following
    readings for the next ones. *)
Fixpoint restamp (clk : nat -> DateTime) (k : nat) (rs : list Passenger)
  : list Passenger :=
  match rs with
  | [] => []
  | r :: rest =>
      {| name := name r; passport := passport r; flight_no := flight_no r;
         seat := seat r; booking_id := "BK" ++ strftime (clk k) |}
      :: restamp clk (S k) rest
  end.

Lemma passenger_of_saved_record (r : Passenger) (w : World) :
  passenger_of_record (to_dict r) w
  = (Return {| name := name r; passport := passport r;
               flight_no := flight_no r; seat := seat r;
               booking_id := "BK" ++ strftime (clock w (reads w)) |},
     tick 1 w).
Proof. reflexivity. Qed.

Lemma tick_tick n m w : tick n (tick m w) = tick (n + m) w.
Proof. unfold tick. simpl. f_equal. lia. Qed.

Lemma for_each_saved_records (rs : list Passenger) : forall w : World,
  for_each passenger_of_record (map to_dict rs) w
  = (Return (restamp (clock w) (reads w) rs), tick (length rs) w).
Proof.
  induction rs as [|r rest IH]; intros w.
  - destruct w; reflexivity.
  - cbn [map for_each]. unfold bind at 1.
    rewrite passenger_of_saved_record. unfold bind at 1.
    rewrite IH, tick_tick. cbn [ret restamp length].
    replace (length rest + 1) with (S (length rest)) by lia.
    reflexivity.
Qed.

(** A store made over the file another store saved holds the saved
    records with new booking ids; the ids in the file are not read. *)
Lemma init_after_save (path : string) (rs : list Passenger) (w : World) :
  files w !! path = Some (JsonText (JArr (map to_dict rs))) ->
  AirlineSystem_init path w
  = (Return (set_reservations (fresh_store path)
               (restamp (clock w) (reads w) rs)),
     tick (length rs) w).
Proof.
  intros Hfile.
  unfold AirlineSystem_init, load_reservations, bind, os_path_exists.
  cbn [data_file]. rewrite Hfile.
  rewrite bool_decide_eq_true_2 by (eexists; reflexivity).
  unfold try_except_JSONDecodeError, json_load, bind. cbn [data_file].
  rewrite Hfile. cbn [py_iter ret].
  rewrite for_each_saved_records. reflexivity.
Qed.

(** * Booking ids across bookings and sessions *)

(** A session: start over no file, book for Ann, book for Ben. *)
Definition two_bookings : Py AirlineSystem :=
  let* s0 := AirlineSystem_init "reservations.json" in
  let* (_, s1) := book_ticket s0 "Ann" "A00000001" "FL101" "1A" in
  let* (_, s2) := book_ticket s1 "Ben" "B00000002" "FL101" "1C" in
  ret s2.

(** A booking in one session, and a second store made over the same file
    afterwards: the listing of the first store, the listing of the second,
    and what cancelling the id the booking returned gives in the second. *)
Definition book_then_reload : Py (list json * list json * bool) :=
  let* s0 := AirlineSystem_init "reservations.json" in
  let* (id, s1) := book_ticket s0 "Ann" "A00000001" "FL101" "1A" in
  let* s2 := AirlineSystem_init "reservations.json" in
  let* (found, _) := cancel_reservation s2 id in
  ret (view_reservations s1, view_reservations s2, found).

Definition ann_record (id : string) : json :=
  JObj [ ("booking_id", JStr id); ("name", JStr "Ann");
         ("passport", JStr "A00000001"); ("flight_no", JStr "FL101");
         ("seat", JStr "1A") ].

Lemma two_bookings_value :
  fst (two_bookings busy_second) = Return (store_of [ann_0405; ben_0405]).
Proof. vm_compute. reflexivity. Qed.

(** C4, where the code departs from it: two bookings within one second of
    the clock get the same booking id, and so do the records of a file of
    two reservations when a store loads them within one second. *)
Theorem same_second_same_booking_id :
  (exists self,
     fst (two_bookings busy_second) = Return self
     /\ map booking_id (reservations self)
        = ["BK20240102030405"; "BK20240102030405"]
     /\ ~ NoDup (map booking_id (reservations self)))
  /\ (exists self,
        fst (AirlineSystem_init "reservations.json"
               (disk_with (JsonText (JArr (map to_dict [bob; alice])))))
        = Return self
        /\ NoDup (map booking_id [bob; alice])
        /\ ~ NoDup (map booking_id (reservations self))).
Proof.
  split.
  - exists (store_of [ann_0405; ben_0405]).
    split; [vm_compute; reflexivity|]. split; [reflexivity|].
    intros [Hnotin _]%NoDup_cons. apply Hnotin. left.
  - eexists. split; [vm_compute; reflexivity|]. split.
    + compute_done.
    + cbn. intros [Hnotin _]%NoDup_cons. apply Hnotin. left.
Qed.

(** C1, where the code departs from it: after a booking, a second store
    made over the saved file lists the record under another booking id
    than the first store does (the id of the moment of loading), and the
    id the booking returned cancels nothing there. *)
Theorem reload_changes_booking_id :
  fst (book_then_reload two_days)
  = Return ([ann_record "BK20240102211540"],
            [ann_record "BK20240103093000"], false)
  /\ [ann_record "BK20240103093000"] <> [ann_record "BK20240102211540"].
Proof. split; [vm_compute; reflexivity|discriminate]. Qed.

(** * A successful booking, and the store made over its file *)

Lemma book_ticket_success
    (self : AirlineSystem) (nm pp flight seat_label : string)
    (w w' : World) (id : string) (self' : AirlineSystem) :
  book_ticket self nm pp flight seat_label w = (Return (id, self'), w') ->
  id = "BK" ++ strftime (clock w (reads w))
  /\ self' = set_reservations self
               (reservations self ++
                [ {| name := nm; passport := pp; flight_no := flight;
                     seat := seat_label; booking_id := id |} ])
  /\ w' = write_file (data_file self)
            (JsonText (JArr (map to_dict (reservations self')))) (tick 1 w).
Proof.
  unfold book_ticket.
  destruct (negb (PyStr.truthy _)); [discriminate|].
  destruct (negb (validate_passport _)); [discriminate|].
  destruct (negb (bool_decide (flight ∈ _))); [discriminate|].
  destruct (negb (bool_decide (seat_label ∈ _))); [discriminate|].
  destruct (seat_taken _ _ _); [discriminate|].
  intros [= <- <- <-]. repeat split.
Qed.

(** After a successful booking, a store made over the same file holds the
    records of the booking store, each under a newly generated id. *)
Lemma reload_after_book
    (self : AirlineSystem) (nm pp flight seat_label : string)
    (w w' : World) (id : string) (self' : AirlineSystem) :
  book_ticket self nm pp flight seat_label w = (Return (id, self'), w') ->
  AirlineSystem_init (data_file self) w'
  = (Return (set_reservations (fresh_store (data_file self))
               (restamp (clock w') (reads w') (reservations self'))),
     tick (length (reservations self')) w').
Proof.
  intros Hbook.
  apply book_ticket_success in Hbook as (_ & _ & ->).
  apply init_after_save. unfold write_file. cbn [files].
  apply lookup_insert_eq.
Qed.

(** * Further properties of booking *)

Lemma seat_taken_false (rs : list Passenger) (flight seat_label : string) :
  seat_taken rs flight seat_label = false <->
  forall r, r ∈ rs -> ~ (flight_no r = flight /\ seat r = seat_label).
Proof.
  unfold seat_taken. split.
  - intros Hfree r Hin [Hf Hs].
    assert (Htaken : existsb
              (fun r => String.eqb (seat r) seat_label
                        && String.eqb (flight_no r) flight) rs = true).
    { apply existsb_exists. exists r.
      split; [apply list_elem_of_In; exact Hin|].
      rewrite Hf, Hs, !String.eqb_refl. reflexivity. }
    congruence.
  - intros Hfree. apply not_true_is_false. intros Htaken.
    apply existsb_exists in Htaken as (r & Hin & Heq).
    apply andb_true_iff in Heq as [Hs Hf].
    apply String.eqb_eq in Hs, Hf.
    apply (Hfree r); [apply list_elem_of_In; exact Hin|].
    split; assumption.
Qed.

(** The five checks of [book_ticket], in the order the method makes
    them. *)
Definition bookable (self : AirlineSystem) (nm pp flight seat_label : string)
  : Prop :=
  PyStr.strip nm <> ""
  /\ validate_passport pp = true
  /\ flight ∈ available_flights self
  /\ seat_label ∈ seats self
  /\ forall r, r ∈ reservations self ->
               ~ (flight_no r = flight /\ seat r = seat_label).

Lemma book_ticket_bookable
    (self : AirlineSystem) (nm pp flight seat_label : string) (w : World) :
  bookable self nm pp flight seat_label ->
  book_ticket self nm pp flight seat_label w
  = (let id := "BK" ++ strftime (clock w (reads w)) in
     let self' := set_reservations self
                    (reservations self ++
                     [ {| name := nm; passport := pp; flight_no := flight;
                          seat := seat_label; booking_id := id |} ]) in
     (Return (id, self'),
      write_file (data_file self)
        (JsonText (JArr (view_reservations self'))) (tick 1 w))).
Proof.
  intros (Hname & Hpass & Hflight & Hseat & Hfree).
  unfold book_ticket.
  apply truthy_true in Hname. rewrite Hname, Hpass.
  rewrite !bool_decide_eq_true_2 by assumption.
  apply seat_taken_false in Hfree. rewrite Hfree. reflexivity.
Qed.

Lemma book_ticket_raises
    (self : AirlineSystem) (nm pp flight seat_label : string)
    (w w' : World) (e : exn) :
  book_ticket self nm pp flight seat_label w = (Raise e, w') ->
  w' = w
  /\ ~ bookable self nm pp flight seat_label
  /\ e ∈ [ ValueError "Name cannot be empty";
           ValueError
             "Invalid passport number (9 alphanumeric characters required)";
           ValueError "Invalid flight number";
           ValueError "Invalid seat";
           ValueError "Seat already booked" ].
Proof.
  unfold book_ticket, bookable.
  destruct (PyStr.truthy (PyStr.strip nm)) eqn:Hname; cbn [negb].
  2:{ intros [= <- <-]. split; [reflexivity|]. split; [|set_solver].
      intros (H & _). apply truthy_true in H. congruence. }
  destruct (validate_passport pp) eqn:Hpass; cbn [negb].
  2:{ intros [= <- <-]. split; [reflexivity|]. split; [|set_solver].
      intros (_ & H & _). congruence. }
  destruct (bool_decide (flight ∈ available_flights self)) eqn:Hflight;
    cbn [negb].
  2:{ intros [= <- <-]. split; [reflexivity|]. split; [|set_solver].
      intros (_ & _ & H & _). apply bool_decide_eq_false_1 in Hflight.
      contradiction. }
  destruct (bool_decide (seat_label ∈ seats self)) eqn:Hseat; cbn [negb].
  2:{ intros [= <- <-]. split; [reflexivity|]. split; [|set_solver].
      intros (_ & _ & _ & H & _). apply bool_decide_eq_false_1 in Hseat.
      contradiction. }
  destruct (seat_taken (reservations self) flight seat_label) eqn:Htaken.
  2:{ discriminate. }
  intros [= <- <-]. split; [reflexivity|]. split; [|set_solver].
  intros (_ & _ & _ & _ & H). apply seat_taken_false in H. congruence.
Qed.

(** X1: a booking that passes the five checks (name not blank, passport
    accepted, known flight, known seat, seat free on that flight) returns
    the id [BK] and the clock reading to the second, appends exactly one
    record with the four submitted fields and that id after the records
    already there, rewrites the file with the listing of the new store and
    reads the clock once. *)
Theorem book_ticket_appends
    (self : AirlineSystem) (nm pp flight seat_label : string) (w : World) :
  bookable self nm pp flight seat_label ->
  exists id self',
    book_ticket self nm pp flight seat_label w
    = (Return (id, self'),
       write_file (data_file self)
         (JsonText (JArr (view_reservations self'))) (tick 1 w))
    /\ id = "BK" ++ strftime (clock w (reads w))
    /\ reservations self'
       = (reservations self ++
          [ {| name := nm; passport := pp; flight_no := flight;
               seat := seat_label; booking_id := id |} ])%list
    /\ length (view_reservations self')
       = S (length (view_reservations self))
    /\ data_file self' = data_file self
    /\ available_flights self' = available_flights self
    /\ seats self' = seats self.
Proof.
  intros Hok. eexists _, _. split; [apply book_ticket_bookable; exact Hok|].
  cbv zeta. repeat split.
  unfold view_reservations. cbn [reservations set_reservations].
  rewrite !length_map, length_app. simpl. lia.
Qed.

Lemma bookable_sample :
  bookable (store_of [bob; alice_lc]) "Carol" "C00000001" "FL103" "10F".
Proof.
  split; [discriminate|]. split; [reflexivity|].
  split; [compute_done|]. split; [compute_done|].
  intros r Hin [Hf Hs]. apply list_elem_of_In in Hin. simpl in Hin.
  destruct Hin as [<-|[<-|[]]]; discriminate.
Defined.

Lemma book_ticket_appends_witness :
  exists id self',
    book_ticket (store_of [bob; alice_lc]) "Carol" "C00000001" "FL103" "10F"
      two_days
    = (Return (id, self'),
       write_file "reservations.json"
         (JsonText (JArr (view_reservations self'))) (tick 1 two_days))
    /\ id = "BK20240102211540"
    /\ reservations self'
       = [bob; alice_lc;
          {| name := "Carol"; passport := "C00000001"; flight_no := "FL103";
             seat := "10F"; booking_id := "BK20240102211540" |}].
Proof.
  destruct (book_ticket_appends (store_of [bob; alice_lc])
              "Carol" "C00000001" "FL103" "10F" two_days bookable_sample)
    as (id & self' & Hrun & Hid & Hrs & _).
  exists id, self'. split; [exact Hrun|].
  split; [rewrite Hid; reflexivity|].
  rewrite Hrs, Hid. reflexivity.
Defined.



(** * What every method keeps *)

(** The flight and seat of a record. *)
Definition seat_key (r : Passenger) : string * string :=
  (flight_no r, seat r).

(** No two records on the same seat of the same flight. *)
Definition seats_distinct (rs : list Passenger) : Prop :=
  NoDup (map seat_key rs).

(** The four field checks of [book_ticket], on a record of the store. *)
Definition record_valid (self : AirlineSystem) (r : Passenger) : Prop :=
  PyStr.strip (name r) <> ""
  /\ validate_passport (passport r) = true
  /\ flight_no r ∈ available_flights self
  /\ seat r ∈ seats self.

Definition store_ok (self : AirlineSystem) : Prop :=
  Forall (record_valid self) (reservations self)
  /\ seats_distinct (reservations self).

Lemma record_valid_set_reservations self rs r :
  record_valid (set_reservations self rs) r <-> record_valid self r.
Proof. reflexivity. Qed.

Lemma book_ticket_returns_bookable
    (self : AirlineSystem) (nm pp flight seat_label : string)
    (w w' : World) (id : string) (self' : AirlineSystem) :
  book_ticket self nm pp flight seat_label w = (Return (id, self'), w') ->
  bookable self nm pp flight seat_label.
Proof.
  unfold book_ticket, bookable.
  destruct (PyStr.truthy (PyStr.strip nm)) eqn:Hname; cbn [negb];
    [|discriminate].
  destruct (validate_passport pp) eqn:Hpass; cbn [negb]; [|discriminate].
  destruct (bool_decide (flight ∈ available_flights self)) eqn:Hflight;
    cbn [negb]; [|discriminate].
  destruct (bool_decide (seat_label ∈ seats self)) eqn:Hseat;
    cbn [negb]; [|discriminate].
  destruct (seat_taken (reservations self) flight seat_label) eqn:Htaken;
    [discriminate|].
  intros _. split; [apply truthy_true; exact Hname|].
  split; [reflexivity|].
  split; [apply bool_decide_eq_true_1 in Hflight; exact Hflight|].
  split; [apply bool_decide_eq_true_1 in Hseat; exact Hseat|].
  apply seat_taken_false. exact Htaken.
Qed.

Lemma store_ok_book
    (self : AirlineSystem) (nm pp flight seat_label : string)
    (w w' : World) (id : string) (self' : AirlineSystem) :
  store_ok self ->
  book_ticket self nm pp flight seat_label w = (Return (id, self'), w') ->
  store_ok self'.
Proof.
  intros [Hvalid Hdistinct] Hrun.
  pose proof (book_ticket_returns_bookable _ _ _ _ _ _ _ _ _ Hrun) as Hok.
  rewrite (book_ticket_bookable _ _ _ _ _ _ Hok) in Hrun.
  cbv zeta in Hrun. injection Hrun as <- <- <-.
  destruct Hok as (Hname & Hpass & Hflight & Hseat & Hfree).
  split; cbn [reservations set_reservations].
  - apply Forall_app. split; [exact Hvalid|].
    constructor; [|constructor]. repeat split; assumption.
  - unfold seats_distinct. rewrite map_app. apply NoDup_app.
    split; [exact Hdistinct|]. split; [|apply NoDup_singleton].
    intros k Hk Hnew. apply list_elem_of_singleton in Hnew. subst k.
    apply list_elem_of_fmap in Hk as (r & Hkey & Hin).
    injection Hkey as Hf Hs. apply (Hfree r Hin). split; congruence.
Qed.

Lemma seats_distinct_filter (P : Passenger -> Prop)
    `{!forall r, Decision (P r)} (rs : list Passenger) :
  seats_distinct rs -> seats_distinct (filter P rs).
Proof.
  unfold seats_distinct. induction rs as [|r rest IH]; [intros; constructor|].
  cbn [map]. intros [Hnotin Hrest]%NoDup_cons. rewrite filter_cons.
  destruct (decide (P r)); [|apply IH; exact Hrest].
  cbn [map]. apply NoDup_cons. split; [|apply IH; exact Hrest].
  intros Hin. apply Hnotin.
  apply list_elem_of_fmap in Hin as (r' & Hkey & Hin).
  apply list_elem_of_filter in Hin as [_ Hin].
  apply list_elem_of_fmap. exists r'. split; assumption.
Qed.

Lemma store_ok_cancel (self : AirlineSystem) (id : string) (w w' : World)
    (found : bool) (self' : AirlineSystem) :
  store_ok self ->
  cancel_reservation self id w = (Return (found, self'), w') ->
  store_ok self'.
Proof.
  intros [Hvalid Hdistinct] Hrun.
  rewrite cancel_reservation_filter in Hrun. cbv zeta in Hrun.
  assert (Hself : self' = set_reservations self
            (filter (fun r => booking_id r ≠ id) (reservations self)))
    by (destruct (decide _); congruence).
  subst self'. split; cbn [reservations set_reservations].
  - apply Forall_forall. intros r [_ Hin]%list_elem_of_filter.
    rewrite Forall_forall in Hvalid. apply (Hvalid r Hin).
  - apply seats_distinct_filter. exact Hdistinct.
Qed.

Lemma search_body_after (query : string) (rs : list Passenger) :
  snd (search_body query rs)
  = if PyStr.truthy query then sort_by_name rs else rs.
Proof.
  unfold search_body. destruct (PyStr.truthy query); cbn [negb];
    [|reflexivity].
  destruct rs as [|r0 rest]; [reflexivity|].
  cbv beta iota zeta.
  destruct (String.eqb _ _); [reflexivity|].
  destruct (decide _); [reflexivity|].
  destruct (PyStr.lt _ _); reflexivity.
Qed.

Lemma search_store_after (self : AirlineSystem) (query : string) :
  snd (search_reservations self query)
  = set_reservations self
      (if PyStr.truthy query then sort_by_name (reservations self)
       else reservations self).
Proof.
  unfold search_reservations.
  pose proof (search_body_after query (reservations self)) as Hafter.
  destruct (search_body query (reservations self)) as [step rs'].
  cbn [snd] in *. rewrite Hafter. reflexivity.
Qed.

Lemma search_store_effect_perm (self : AirlineSystem) (query : string) :
  reservations (snd (search_reservations self query)) ≡ₚ reservations self
  /\ available_flights (snd (search_reservations self query))
     = available_flights self
  /\ seats (snd (search_reservations self query)) = seats self.
Proof.
  rewrite search_store_after. cbn [reservations set_reservations].
  split; [|split; reflexivity].
  destruct (PyStr.truthy query); [apply sort_by_name_perm|reflexivity].
Qed.

Lemma store_ok_search (self : AirlineSystem) (query : string) :
  store_ok self -> store_ok (snd (search_reservations self query)).
Proof.
  intros [Hvalid Hdistinct].
  destruct (search_store_effect_perm self query) as (Hperm & Hfl & Hst).
  split.
  - rewrite Hperm. apply Forall_forall. intros r Hin.
    rewrite Forall_forall in Hvalid. specialize (Hvalid r Hin).
    unfold record_valid in *. rewrite Hfl, Hst. exact Hvalid.
  - unfold seats_distinct. rewrite Hperm. exact Hdistinct.
Qed.

Lemma store_ok_sample : store_ok (store_of [bob; alice; alice_lc]).
Proof.
  split.
  - repeat constructor; try discriminate; compute_done.
  - unfold seats_distinct. compute_done.
Defined.

(** X3: the methods keep the store well formed. When every record of the
    store passes the four field checks of [book_ticket] and no two records
    hold the same seat of the same flight, the same is true of the store
    after a successful [book_ticket], after [cancel_reservation] and after
    [search_reservations]; a store made where no file exists is well
    formed. *)
Theorem store_ok_kept :
  (forall (self : AirlineSystem) (nm pp flight seat_label : string)
          (w w' : World) (id : string) (self' : AirlineSystem),
     store_ok self ->
     book_ticket self nm pp flight seat_label w = (Return (id, self'), w') ->
     store_ok self')
  /\ (forall (self : AirlineSystem) (id : string) (w w' : World)
             (found : bool) (self' : AirlineSystem),
        store_ok self ->
        cancel_reservation self id w = (Return (found, self'), w') ->
        store_ok self')
  /\ (forall (self : AirlineSystem) (query : string),
        store_ok self -> store_ok (snd (search_reservations self query)))
  /\ (forall (path : string) (w : World),
        files w !! path = None ->
        exists self, AirlineSystem_init path w = (Return self, w)
                     /\ store_ok self).
Proof.
  split; [exact store_ok_book|]. split; [exact store_ok_cancel|].
  split; [exact store_ok_search|].
  intros path w Hfile. exists (fresh_store path).
  split; [apply init_no_file; exact Hfile|].
  split; [constructor|constructor].
Qed.

Lemma store_ok_kept_witness :
  store_ok (snd (search_reservations (store_of [bob; alice; alice_lc]) "al"))
  /\ reservations
       (snd (search_reservations (store_of [bob; alice; alice_lc]) "al"))
     = [alice; alice_lc; bob].
Proof.
  split; [|reflexivity].
  apply (proj1 (proj2 (proj2 store_ok_kept))). exact store_ok_sample.
Defined.

(** * Stores made over a saved file *)

(** The same name, passport, flight and seat. *)
Definition same_fields (r r' : Passenger) : Prop :=
  name r' = name r /\ passport r' = passport r
  /\ flight_no r' = flight_no r /\ seat r' = seat r.

Lemma restamp_same_fields clk rs : forall k,
  Forall2 same_fields rs (restamp clk k rs).
Proof.
  induction rs as [|r rest IH]; intros k; cbn [restamp]; constructor.
  - repeat split.
  - apply IH.
Qed.

Lemma restamp_booking_id clk rs : forall k i r',
  restamp clk k rs !! i = Some r' ->
  booking_id r' = "BK" ++ strftime (clk (k + i)).
Proof.
  induction rs as [|r rest IH]; intros k i r'; [discriminate|].
  destruct i as [|i]; cbn [restamp].
  - intros [= <-]. cbn. rewrite Nat.add_0_r. reflexivity.
  - intros Hi. apply (IH (S k)) in Hi. rewrite Hi.
    replace (S k + i) with (k + S i) by lia. reflexivity.
Qed.

Lemma same_fields_store_ok (self : AirlineSystem) (rs rs' : list Passenger) :
  Forall2 same_fields rs rs' ->
  store_ok (set_reservations self rs) -> store_ok (set_reservations self rs').
Proof.
  intros Hsame [Hvalid Hdistinct]. cbn [reservations set_reservations] in *.
  split; cbn [reservations set_reservations].
  - clear Hdistinct. induction Hsame as [|r r' rs rs' Hr _ IH];
      [constructor|].
    apply Forall_cons in Hvalid as [Hv Hvalid].
    constructor; [|apply IH; exact Hvalid].
    destruct Hr as (Hn & Hp & Hf & Hs). unfold record_valid in *.
    cbn [available_flights seats set_reservations] in *.
    rewrite Hn, Hp, Hf, Hs. exact Hv.
  - unfold seats_distinct in *.
    replace (map seat_key rs') with (map seat_key rs); [exact Hdistinct|].
    clear -Hsame. induction Hsame as [|r r' rs rs' Hr _ IH]; [reflexivity|].
    cbn [map]. rewrite IH. f_equal.
    destruct Hr as (_ & _ & Hf & Hs). unfold seat_key. rewrite Hf, Hs.
    reflexivity.
Qed.

(** X4: a store made over a file that holds the listing of the records
    [rs] holds as many records, in the same order and with the same name,
    passport, flight and seat, whatever these are (nothing is validated at
    load time); the booking id of the record at position [i] is the one of
    the [i]-th clock reading made while loading, not the one in the file;
    the files are as before; and the store is well formed when [rs]
    was. *)
Theorem reload_keeps_fields
    (path : string) (rs : list Passenger) (w : World) :
  files w !! path = Some (JsonText (JArr (map to_dict rs))) ->
  exists self',
    AirlineSystem_init path w = (Return self', tick (length rs) w)
    /\ data_file self' = path
    /\ Forall2 same_fields rs (reservations self')
    /\ (forall i r', reservations self' !! i = Some r' ->
          booking_id r' = "BK" ++ strftime (clock w (reads w + i)))
    /\ (store_ok (set_reservations (fresh_store path) rs) -> store_ok self').
Proof.
  intros Hfile. eexists. split; [apply init_after_save; exact Hfile|].
  cbn [data_file reservations set_reservations fresh_store].
  split; [reflexivity|]. split; [apply restamp_same_fields|].
  split; [apply restamp_booking_id|].
  apply same_fields_store_ok, restamp_same_fields.
Qed.

Lemma reload_keeps_fields_witness :
  exists self',
    AirlineSystem_init "reservations.json"
      (disk_with (JsonText (JArr (map to_dict [bob; alice]))))
    = (Return self',
       tick 2 (disk_with (JsonText (JArr (map to_dict [bob; alice])))))
    /\ map name (reservations self') = ["Bob"; "Alice"]
    /\ map seat (reservations self') = ["1A"; "1B"].
Proof.
  destruct (reload_keeps_fields "reservations.json" [bob; alice]
              (disk_with (JsonText (JArr (map to_dict [bob; alice])))))
    as (self' & Hrun & _ & Hsame & _).
  - vm_compute. reflexivity.
  - exists self'. split; [exact Hrun|].
    destruct (reservations self') as [|r1 [|r2 [|r3 rest]]];
      try (exfalso; apply Forall2_length in Hsame; discriminate).
    inversion Hsame as [|? ? ? ? H1 Hrest]; subst.
    inversion Hrest as [|? ? ? ? H2 _]; subst.
    destruct H1 as (Hn1 & _ & _ & Hs1). destruct H2 as (Hn2 & _ & _ & Hs2).
    cbn [map]. rewrite Hn1, Hn2, Hs1, Hs2. split; reflexivity.
Defined.

(** * Further properties of cancellation *)



(** X6: cancelling the same id a second time finds nothing: it returns
    [False] and changes neither the store nor the world. *)
Theorem cancel_reservation_twice
    (self : AirlineSystem) (id : string) (w w' : World)
    (found : bool) (self' : AirlineSystem) :
  cancel_reservation self id w = (Return (found, self'), w') ->
  cancel_reservation self' id w' = (Return (false, self'), w').
Proof.
  intros Hrun. rewrite cancel_reservation_filter in Hrun. cbv zeta in Hrun.
  assert (Hself : self' = set_reservations self
            (filter (fun r => booking_id r ≠ id) (reservations self)))
    by (destruct (decide _); congruence).
  rewrite cancel_reservation_filter. cbv zeta.
  assert (Hnone : forall r, r ∈ reservations self' -> booking_id r <> id).
  { subst self'. cbn [reservations set_reservations].
    intros r [Hid _]%list_elem_of_filter. exact Hid. }
  rewrite filter_keeps_all by exact Hnone.
  rewrite set_reservations_same. clear Hrun Hself Hnone.
  destruct (decide (length (reservations self') < length (reservations self')));
    [lia|reflexivity].
Qed.

Lemma cancel_reservation_twice_witness :
  cancel_reservation (store_of [bob; alice_lc]) "BK20240102030507"
    (write_file "reservations.json"
       (JsonText (JArr (map to_dict [bob; alice_lc]))) busy_second)
  = (Return (false, store_of [bob; alice_lc]),
     write_file "reservations.json"
       (JsonText (JArr (map to_dict [bob; alice_lc]))) busy_second).
Proof.
  apply (cancel_reservation_twice (store_of [bob; alice; alice_lc])
           "BK20240102030507" busy_second _ true).
  reflexivity.
Defined.

(** X7: booking and then cancelling the returned id undoes the booking
    when no record already in the store carries that id: the cancellation
    returns [True], the store is again the one before the booking, and the
    file holds its listing. *)
Theorem book_then_cancel_restores
    (self : AirlineSystem) (nm pp flight seat_label : string)
    (w w' : World) (id : string) (self' : AirlineSystem) :
  book_ticket self nm pp flight seat_label w = (Return (id, self'), w') ->
  (forall r, r ∈ reservations self -> booking_id r <> id) ->
  cancel_reservation self' id w'
  = (Return (true, self),
     write_file (data_file self)
       (JsonText (JArr (view_reservations self))) w').
Proof.
  intros Hbook Hfresh.
  apply book_ticket_success in Hbook as (_ & -> & _).
  rewrite cancel_reservation_filter. cbv zeta.
  cbn [reservations set_reservations data_file].
  rewrite filter_app, filter_keeps_all by exact Hfresh.
  rewrite filter_cons_False by (intros H; apply H; reflexivity).
  rewrite filter_nil, app_nil_r.
  destruct (decide _) as [|Hge]; [|exfalso; apply Hge; rewrite length_app;
                                   simpl; lia].
  destruct self; reflexivity.
Qed.

Lemma book_then_cancel_restores_witness :
  cancel_reservation
    (store_of [bob; alice_lc;
               {| name := "Carol"; passport := "C00000001";
                  flight_no := "FL103"; seat := "10F";
                  booking_id := "BK20240102211540" |}])
    "BK20240102211540"
    (write_file "reservations.json"
       (JsonText (JArr (map to_dict
          [bob; alice_lc;
           {| name := "Carol"; passport := "C00000001";
              flight_no := "FL103"; seat := "10F";
              booking_id := "BK20240102211540" |}])))
       (tick 1 two_days))
  = (Return (true, store_of [bob; alice_lc]),
     write_file "reservations.json"
       (JsonText (JArr (map to_dict [bob; alice_lc])))
       (write_file "reservations.json"
          (JsonText (JArr (map to_dict
             [bob; alice_lc;
              {| name := "Carol"; passport := "C00000001";
                 flight_no := "FL103"; seat := "10F";
                 booking_id := "BK20240102211540" |}])))
          (tick 1 two_days))).
Proof.
  apply (book_then_cancel_restores (store_of [bob; alice_lc])
           "Carol" "C00000001" "FL103" "10F" two_days).
  - vm_compute. reflexivity.
  - intros r Hin. apply list_elem_of_In in Hin. simpl in Hin.
    destruct Hin as [<-|[<-|[]]]; discriminate.
Defined.

(** * Which files the methods touch *)

(** A computation that leaves every file as it was. *)
Definition keeps_files {A} (c : Py A) : Prop :=
  forall w, files (snd (c w)) = files w.

Lemma keeps_files_ret {A} (a : A) : keeps_files (ret a).
Proof. intros w. reflexivity. Qed.

Lemma keeps_files_raise {A} (e : exn) : keeps_files (@raise A e).
Proof. intros w. reflexivity. Qed.

Lemma keeps_files_bind {A B} (c : Py A) (k : A -> Py B) :
  keeps_files c -> (forall a, keeps_files (k a)) -> keeps_files (bind c k).
Proof.
  intros Hc Hk w. unfold bind. specialize (Hc w).
  destruct (c w) as [[a|e] w1]; cbn [snd] in *; [|exact Hc].
  rewrite Hk. exact Hc.
Qed.

Lemma keeps_files_try {A} (c h : Py A) :
  keeps_files c -> keeps_files h ->
  keeps_files (try_except_JSONDecodeError c h).
Proof.
  intros Hc Hh w. unfold try_except_JSONDecodeError. specialize (Hc w).
  destruct (c w) as [[a|[]] w1]; cbn [snd] in *; try exact Hc.
  rewrite Hh. exact Hc.
Qed.

Lemma keeps_files_field d key : keeps_files (field d key).
Proof.
  unfold field. apply keeps_files_bind.
  - unfold subscript. destruct d; try apply keeps_files_raise.
    destruct (assoc key members);
      [apply keeps_files_ret|apply keeps_files_raise].
  - intros []; try apply keeps_files_raise. apply keeps_files_ret.
Qed.

Lemma keeps_files_passenger_of_record d :
  keeps_files (passenger_of_record d).
Proof.
  unfold passenger_of_record.
  repeat (apply keeps_files_bind; [apply keeps_files_field|intros ?]).
  intros w. reflexivity.
Qed.

Lemma keeps_files_for_each {A B} (f : A -> Py B) (xs : list A) :
  (forall x, keeps_files (f x)) -> keeps_files (for_each f xs).
Proof.
  intros Hf. induction xs as [|x xs IH]; cbn [for_each].
  - apply keeps_files_ret.
  - apply keeps_files_bind; [apply Hf|]. intros y.
    apply keeps_files_bind; [exact IH|]. intros ys. apply keeps_files_ret.
Qed.

Lemma keeps_files_init (path : string) : keeps_files (AirlineSystem_init path).
Proof.
  unfold AirlineSystem_init, load_reservations.
  apply keeps_files_bind; [intros w; reflexivity|]. intros [|].
  - apply keeps_files_try; [|apply keeps_files_ret].
    apply keeps_files_bind.
    { intros w. unfold json_load. destruct (files w !! _) as [[]|];
        reflexivity. }
    intros data. apply keeps_files_bind.
    { destruct data; try apply keeps_files_raise; apply keeps_files_ret. }
    intros ds. apply keeps_files_bind; [|intros rs; apply keeps_files_ret].
    apply keeps_files_for_each, keeps_files_passenger_of_record.
  - apply keeps_files_ret.
Qed.

(** X8: the store touches no file but its own. The constructor leaves
    every file as it was, whatever the file holds and whether it returns
    or raises; [book_ticket] and [cancel_reservation] leave every file
    other than [data_file] as it was. *)
Theorem only_data_file_written :
  (forall (path : string) (w : World),
     files (snd (AirlineSystem_init path w)) = files w)
  /\ (forall (self : AirlineSystem) (nm pp flight seat_label : string)
             (w : World) (p : string),
        p <> data_file self ->
        files (snd (book_ticket self nm pp flight seat_label w)) !! p
        = files w !! p)
  /\ (forall (self : AirlineSystem) (id : string) (w : World) (p : string),
        p <> data_file self ->
        files (snd (cancel_reservation self id w)) !! p = files w !! p).
Proof.
  split; [intros path; apply keeps_files_init|]. split.
  - intros self nm pp flight seat_label w p Hp.
    destruct (book_ticket self nm pp flight seat_label w)
      as [[[id self']|e] w'] eqn:Hrun.
    + apply book_ticket_success in Hrun as (_ & _ & ->).
      cbn [snd files write_file tick].
      apply lookup_insert_ne. congruence.
    + apply book_ticket_raises in Hrun as (-> & _). reflexivity.
  - intros self id w p Hp. rewrite cancel_reservation_filter. cbv zeta.
    destruct (decide _); [|reflexivity].
    cbn [snd files write_file]. apply lookup_insert_ne. congruence.
Qed.

Lemma only_data_file_written_witness :
  files (snd (book_ticket (fresh_store "bookings.json")
                "Ann" "A00000001" "FL101" "1A"
                (disk_with (NotJson "notes")))) !! "reservations.json"
  = Some (NotJson "notes").
Proof.
  rewrite (proj1 (proj2 only_data_file_written)
             (fresh_store "bookings.json")
             "Ann" "A00000001" "FL101" "1A" (disk_with (NotJson "notes"))
             "reservations.json").
  - vm_compute. reflexivity.
  - discriminate.
Defined.

(** * The seats and flights of a store *)

(** X9: the seats every store is made with are exactly the sixty labels
    made of a row number from 1 to 10 written in decimal followed by one
    of the letters A to F (upper case), each listed once; the flights are
    the three codes FL101, FL102 and FL103. The file has no part in it. *)
Theorem store_seats_and_flights (path : string) (w : World) (self : AirlineSystem) :
  fst (AirlineSystem_init path w) = Return self ->
  (forall s : string,
     s ∈ seats self <->
     exists (row : nat) (letter : ascii),
       1 <= row <= 10
       /\ letter ∈ list_ascii_of_string "ABCDEF"
       /\ s = str_of_nat row ++ String letter EmptyString)
  /\ NoDup (seats self)
  /\ length (seats self) = 60
  /\ available_flights self = ["FL101"; "FL102"; "FL103"].
Proof.
  intros Hinit.
  assert (Hfields : seats self = all_seats
                    /\ available_flights self = all_flights).
  { revert Hinit. unfold AirlineSystem_init, load_reservations, bind.
    destruct (os_path_exists _ w) as [[[|]|e] w1]; cbn [fst];
      try discriminate.
    - unfold try_except_JSONDecodeError.
      destruct (json_load _ w1) as [[data|e] w2]; cbn [fst].
      + destruct (py_iter data w2) as [[ds|e] w3]; cbn [fst].
        * destruct (for_each passenger_of_record ds w3) as [[rs|e] w4];
            cbn [fst ret].
          -- intros [= <-]. split; reflexivity.
          -- destruct e; cbn; try discriminate. intros [= <-].
             split; reflexivity.
        * destruct e; cbn; try discriminate. intros [= <-].
          split; reflexivity.
      + destruct e; cbn; try discriminate. intros [= <-].
        split; reflexivity.
    - cbn. intros [= <-]. split; reflexivity. }
  destruct Hfields as [-> ->].
  split; [|split; [compute_done|split; reflexivity]].
  intros s. unfold all_seats. rewrite list_elem_of_bind. split.
  - intros (row & Hs & Hrow). apply elem_of_seq in Hrow.
    apply list_elem_of_bind in Hs as (letter & Hs & Hletter).
    apply list_elem_of_singleton in Hs.
    exists row, letter. repeat split; [lia|lia|exact Hletter|exact Hs].
  - intros (row & letter & Hrow & Hletter & ->).
    exists row. split; [|apply elem_of_seq; lia].
    apply list_elem_of_bind. exists letter. split; [|exact Hletter].
    apply list_elem_of_singleton. reflexivity.
Qed.

Lemma store_seats_and_flights_witness :
  "10F" ∈ seats (fresh_store "reservations.json")
  /\ NoDup (seats (fresh_store "reservations.json")).
Proof.
  destruct (store_seats_and_flights "reservations.json" busy_second
              (fresh_store "reservations.json")) as (Hseats & Hnodup & _).
  - reflexivity.
  - split; [|exact Hnodup]. apply Hseats.
    exists 10, (ascii_of_N 70). split; [lia|]. split; [compute_done|].
    reflexivity.
Defined.

(** * The shape of a booking id *)

Lemma length_append (a b : string) :
  String.length (a ++ b) = String.length a + String.length b.
Proof.
  induction a as [|c a IH]; [reflexivity|].
  rewrite append_cons. cbn [String.length]. rewrite IH. reflexivity.
Qed.

Lemma append_inj (a a' b b' : string) :
  String.length a = String.length a' ->
  a ++ b = a' ++ b' -> a = a' /\ b = b'.
Proof.
  revert a'. induction a as [|c a IH]; intros [|c' a'] Hlen Heq;
    try discriminate.
  - split; [reflexivity|exact Heq].
  - rewrite !append_cons in Heq. injection Heq as -> Heq.
    injection Hlen as Hlen. destruct (IH a' Hlen Heq) as [-> ->].
    split; reflexivity.
Qed.

Lemma zero_pad_length (width : nat) : forall n,
  String.length (PyStr.zero_pad width n) = width.
Proof.
  induction width as [|width IH]; intros n; cbn [PyStr.zero_pad];
    [reflexivity|].
  rewrite length_append, IH. cbn [String.length]. lia.
Qed.

Lemma digit_inj (n m : nat) :
  PyStr.digit n = PyStr.digit m -> n mod 10 = m mod 10.
Proof.
  unfold PyStr.digit. intros Heq.
  apply (f_equal nat_of_ascii) in Heq.
  pose proof (Nat.mod_upper_bound n 10). pose proof (Nat.mod_upper_bound m 10).
  rewrite !nat_ascii_embedding in Heq by lia. lia.
Qed.

Lemma zero_pad_inj (width : nat) : forall n m,
  PyStr.zero_pad width n = PyStr.zero_pad width m ->
  n mod 10 ^ width = m mod 10 ^ width.
Proof.
  induction width as [|width IH]; intros n m Heq.
  - cbn [Nat.pow]. rewrite !Nat.mod_1_r. reflexivity.
  - cbn [PyStr.zero_pad] in Heq.
    apply append_inj in Heq as [Hhigh Hlow];
      [|rewrite !zero_pad_length; reflexivity].
    injection Hlow as Hlow. apply digit_inj in Hlow. apply IH in Hhigh.
    cbn [Nat.pow]. rewrite !Nat.Div0.mod_mul_r. lia.
Qed.

Lemma zero_pad_inj_small (width n m : nat) :
  n < 10 ^ width -> m < 10 ^ width ->
  PyStr.zero_pad width n = PyStr.zero_pad width m -> n = m.
Proof.
  intros Hn Hm Heq. apply zero_pad_inj in Heq.
  rewrite !Nat.mod_small in Heq by assumption. exact Heq.
Qed.

(** Every character is a decimal digit. *)
Fixpoint all_digits (s : string) : bool :=
  match s with
  | EmptyString => true
  | String c s' => PyStr.in_range 48 57 c && all_digits s'
  end.

Lemma all_digits_append (a b : string) :
  all_digits (a ++ b) = all_digits a && all_digits b.
Proof.
  induction a as [|c a IH]; [reflexivity|].
  rewrite append_cons. cbn [all_digits]. rewrite IH, andb_assoc. reflexivity.
Qed.

Lemma digit_in_range (n : nat) : PyStr.in_range 48 57 (PyStr.digit n) = true.
Proof.
  unfold PyStr.in_range, PyStr.ord, PyStr.digit.
  pose proof (Nat.mod_upper_bound n 10).
  assert (Hn : N_of_ascii (ascii_of_nat (48 + n mod 10))
               = N.of_nat (48 + n mod 10)).
  { unfold ascii_of_nat. rewrite N_ascii_embedding; [reflexivity|lia]. }
  rewrite Hn. apply andb_true_iff. split; apply N.leb_le; lia.
Qed.

Lemma zero_pad_digits (width : nat) : forall n,
  all_digits (PyStr.zero_pad width n) = true.
Proof.
  induction width as [|width IH]; intros n; cbn [PyStr.zero_pad];
    [reflexivity|].
  rewrite all_digits_append, IH. cbn [all_digits].
  rewrite digit_in_range. reflexivity.
Qed.

(** The readings [datetime.now()] gives from the year 1000 on: four-digit
    year, and the other fields in their ranges. *)
Definition datetime_valid (t : DateTime) : Prop :=
  1000 <= year t < 10 ^ 4 /\ 1 <= month t <= 12 /\ 1 <= day t <= 31
  /\ hour t < 24 /\ minute t < 60 /\ second t < 60.

(** The fields [strftime('%Y%m%d%H%M%S')] prints. *)
Definition to_the_second (t : DateTime) : list nat :=
  [year t; month t; day t; hour t; minute t; second t].

Lemma strftime_inj (t1 t2 : DateTime) :
  datetime_valid t1 -> datetime_valid t2 ->
  strftime t1 = strftime t2 -> to_the_second t1 = to_the_second t2.
Proof.
  intros ([_ Hy1] & Hm1 & Hd1 & Hh1 & Hmi1 & Hs1)
         ([_ Hy2] & Hm2 & Hd2 & Hh2 & Hmi2 & Hs2) Heq.
  unfold strftime in Heq.
  repeat (apply append_inj in Heq as [? Heq];
          [|rewrite !zero_pad_length; reflexivity]).
  apply zero_pad_inj_small in H; [|assumption|assumption].
  assert (Hpow : 10 ^ 2 = 100) by reflexivity.
  apply zero_pad_inj_small in H0, H1, H2, H3, Heq;
    try (rewrite Hpow; lia).
  unfold to_the_second. congruence.
Qed.

Lemma append_inj_l (p a b : string) : p ++ a = p ++ b -> a = b.
Proof.
  induction p as [|c p IH]; [intros H; exact H|].
  rewrite !append_cons. intros [= H]. apply IH. exact H.
Qed.

Lemma strftime_shape (t : DateTime) :
  String.length (strftime t) = 14 /\ all_digits (strftime t) = true.
Proof.
  unfold strftime. split.
  - rewrite !length_append, !zero_pad_length. reflexivity.
  - rewrite !all_digits_append, !zero_pad_digits. reflexivity.
Qed.

Lemma datetime_valid_sample :
  datetime_valid (clock busy_second 0) /\ datetime_valid (clock busy_second 1)
  /\ datetime_valid (clock busy_second 2).
Proof.
  repeat split; try (cbn; lia); apply Nat.ltb_lt; vm_compute; reflexivity.
Defined.

(** X10: the id a successful booking returns is [BK] followed by fourteen
    decimal digits (sixteen characters, never empty), for a clock reading
    with a four-digit year. *)
Theorem booking_id_shape
    (self : AirlineSystem) (nm pp flight seat_label : string)
    (w w' : World) (id : string) (self' : AirlineSystem) :
  datetime_valid (clock w (reads w)) ->
  book_ticket self nm pp flight seat_label w = (Return (id, self'), w') ->
  exists digits,
    id = "BK" ++ digits
    /\ String.length digits = 14
    /\ all_digits digits = true
    /\ String.length id = 16.
Proof.
  intros _ Hrun. apply book_ticket_success in Hrun as (-> & _ & _).
  exists (strftime (clock w (reads w))).
  destruct (strftime_shape (clock w (reads w))) as [Hlen Hdigits].
  split; [reflexivity|]. split; [exact Hlen|]. split; [exact Hdigits|].
  rewrite length_append, Hlen. reflexivity.
Qed.

Lemma booking_id_shape_witness :
  exists digits,
    "BK20240102030405" = "BK" ++ digits
    /\ String.length digits = 14
    /\ all_digits digits = true
    /\ String.length "BK20240102030405" = 16.
Proof.
  eapply (booking_id_shape (store_of []) "Ann" "A00000001" "FL101" "1A"
            busy_second).
  - exact (proj1 datetime_valid_sample).
  - vm_compute. reflexivity.
Defined.

(** X11: two successful bookings return the same id exactly when their
    clock readings agree to the second (same year, month, day, hour,
    minute and second), whatever the stores and the fields booked. *)
Theorem booking_ids_equal_iff_same_second
    (self1 self2 : AirlineSystem)
    (nm1 pp1 flight1 seat1 nm2 pp2 flight2 seat2 : string)
    (w1 w1' w2 w2' : World) (id1 id2 : string)
    (self1' self2' : AirlineSystem) :
  datetime_valid (clock w1 (reads w1)) ->
  datetime_valid (clock w2 (reads w2)) ->
  book_ticket self1 nm1 pp1 flight1 seat1 w1 = (Return (id1, self1'), w1') ->
  book_ticket self2 nm2 pp2 flight2 seat2 w2 = (Return (id2, self2'), w2') ->
  id1 = id2 <->
  to_the_second (clock w1 (reads w1)) = to_the_second (clock w2 (reads w2)).
Proof.
  intros Hv1 Hv2 Hrun1 Hrun2.
  apply book_ticket_success in Hrun1 as (-> & _ & _).
  apply book_ticket_success in Hrun2 as (-> & _ & _).
  split.
  - intros Heq. apply append_inj_l in Heq.
    apply strftime_inj; assumption.
  - intros Heq. unfold to_the_second in Heq.
    injection Heq as Hy Hm Hd Hh Hmi Hs.
    unfold strftime. rewrite Hy, Hm, Hd, Hh, Hmi, Hs. reflexivity.
Qed.

Lemma booking_ids_equal_iff_same_second_witness :
  "BK20240102030405" = "BK20240102030405" <->
  to_the_second (clock busy_second 0) = to_the_second (clock busy_second 1).
Proof.
  eapply (booking_ids_equal_iff_same_second
            (store_of []) (store_of [ann_0405])
            "Ann" "A00000001" "FL101" "1A" "Ben" "B00000002" "FL101" "1C"
            busy_second _ (tick 1 busy_second)).
  - exact (proj1 datetime_valid_sample).
  - exact (proj1 (proj2 datetime_valid_sample)).
  - vm_compute. reflexivity.
  - vm_compute. reflexivity.
Defined.

(** * Further properties of the string operations *)

Lemma lower_char_idem (c : ascii) :
  PyStr.lower_char (PyStr.lower_char c) = PyStr.lower_char c.
Proof. destruct c as [[] [] [] [] [] [] [] []]; reflexivity. Qed.

Lemma lower_idem (s : string) : PyStr.lower (PyStr.lower s) = PyStr.lower s.
Proof.
  induction s as [|c s IH]; [reflexivity|].
  cbn [PyStr.lower]. rewrite lower_char_idem, IH. reflexivity.
Qed.

Lemma prefix_refl (s : string) : String.prefix s s = true.
Proof.
  induction s as [|c s IH]; [reflexivity|].
  cbn [String.prefix]. destruct (ascii_dec c c); [exact IH|congruence].
Qed.

Lemma contains_refl (s : string) : PyStr.contains s s = true.
Proof. destruct s; cbn [PyStr.contains]; rewrite prefix_refl; reflexivity. Qed.

Lemma ascii_compare_refl (c : ascii) : Ascii.compare c c = Eq.
Proof. unfold Ascii.compare. apply N.compare_refl. Qed.

Lemma ascii_compare_lt_trans (a b c : ascii) :
  Ascii.compare a b = Lt -> Ascii.compare b c = Lt -> Ascii.compare a c = Lt.
Proof.
  unfold Ascii.compare. rewrite !N.compare_lt_iff. apply N.lt_trans.
Qed.

Lemma compare_lt_trans (a : string) : forall b c,
  String.compare a b = Lt -> String.compare b c = Lt ->
  String.compare a c = Lt.
Proof.
  induction a as [|x a IH]; intros [|y b] [|z c]; cbn [String.compare];
    try discriminate; try reflexivity.
  destruct (Ascii.compare x y) eqn:Hxy; try discriminate.
  - apply Ascii.compare_eq_iff in Hxy as ->.
    destruct (Ascii.compare y z); try discriminate; [apply IH|reflexivity].
  - intros _. destruct (Ascii.compare y z) eqn:Hyz; try discriminate.
    + apply Ascii.compare_eq_iff in Hyz as <-. rewrite Hxy. reflexivity.
    + rewrite (ascii_compare_lt_trans _ _ _ Hxy Hyz). reflexivity.
Qed.

Lemma lt_trans (a b c : string) :
  PyStr.lt a b = true -> PyStr.lt b c = true -> PyStr.lt a c = true.
Proof.
  unfold PyStr.lt, String.ltb.
  destruct (String.compare a b) eqn:Hab; try discriminate.
  destruct (String.compare b c) eqn:Hbc; try discriminate.
  rewrite (compare_lt_trans _ _ _ Hab Hbc). reflexivity.
Qed.

Lemma lt_total (a b : string) :
  PyStr.lt a b = false -> PyStr.lt b a = false -> a = b.
Proof.
  unfold PyStr.lt, String.ltb. rewrite (String.compare_antisym a b).
  destruct (String.compare b a) eqn:Hba; cbn; try discriminate.
  intros _ _. apply String.compare_eq_iff in Hba. congruence.
Qed.

#[global] Instance key_le_transitive : Transitive key_le.
Proof.
  intros a b c Hab Hbc. unfold key_le in *.
  destruct (PyStr.lt (sort_key c) (sort_key a)) eqn:Hca; [|reflexivity].
  destruct (PyStr.lt (sort_key a) (sort_key b)) eqn:Hlt.
  - rewrite (lt_trans _ _ _ Hca Hlt) in Hbc. discriminate.
  - rewrite (lt_total _ _ Hlt Hab) in Hca. congruence.
Qed.

Lemma sort_by_name_strongly_sorted (rs : list Passenger) :
  StronglySorted key_le (sort_by_name rs).
Proof.
  apply Sorted.Sorted_StronglySorted; [|apply sort_by_name_sorted].
  exact key_le_transitive.
Qed.

(** * One activation of the search, seen from the sorted list *)

(** With a query that is not empty on a list that is not empty, the
    activation splits the sorted list around its midpoint record and
    decides on the name of that record. *)
Lemma search_body_view (query : string) (rs : list Passenger) :
  PyStr.truthy query = true -> rs <> [] ->
  exists at_mid before after,
    sort_by_name rs = (before ++ at_mid :: after)%list
    /\ length before = length rs / 2
    /\ fst (search_body query rs) =
       if String.eqb (sort_key at_mid) (PyStr.lower query)
       then Done [at_mid]
       else if decide (length rs = 1)
       then Done (if PyStr.contains (PyStr.lower query) (sort_key at_mid)
                  then [at_mid] else [])
       else if PyStr.lt (PyStr.lower query) (sort_key at_mid)
       then Again (PyStr.lower query) before
       else Again (PyStr.lower query) (at_mid :: after).
Proof.
  intros Hq Hrs. destruct rs as [|r0 rest]; [congruence|]. clear Hrs.
  unfold search_body. rewrite Hq. cbn [negb]. cbv beta iota zeta.
  pose proof (midpoint_lookup r0 rest) as Hmid. cbv zeta in Hmid.
  pose proof (sort_by_name_length (r0 :: rest)) as Hlen.
  set (sorted := sort_by_name (r0 :: rest)) in *.
  rewrite Hlen in *. set (mid := length (r0 :: rest) / 2) in *.
  set (at_mid := nth mid sorted r0) in *.
  exists at_mid, (take mid sorted), (drop (S mid) sorted).
  split; [symmetry; apply take_drop_middle; exact Hmid|].
  assert (Hmidlt : mid < length (r0 :: rest))
    by (apply Nat.div_lt; simpl; lia).
  split; [rewrite length_take; lia|].
  fold (sort_key at_mid).
  destruct (String.eqb _ _); [reflexivity|].
  destruct (decide (length (r0 :: rest) = 1)) as [Hone|Hmany].
  - assert (Hzero : mid = 0) by (subst mid; rewrite Hone; reflexivity).
    replace (nth 0 sorted r0) with at_mid
      by (subst at_mid; rewrite Hzero; reflexivity).
    reflexivity.
  - destruct (PyStr.lt _ _); [reflexivity|].
    cbn [fst]. rewrite (drop_S _ _ _ Hmid). reflexivity.
Qed.

(** * Further properties of the search *)

Lemma search_reservations_result (self : AirlineSystem) (query : string) :
  fst (search_reservations self query)
  = search_slice query (reservations self).
Proof.
  rewrite search_slice_step. unfold search_reservations.
  destruct (search_body query (reservations self)) as [[result|q' slice] rs'];
    reflexivity.
Qed.

Lemma search_slice_empty (query : string) : search_slice query [] = [].
Proof.
  rewrite search_slice_step. unfold search_body.
  destruct (PyStr.truthy query); reflexivity.
Qed.

Lemma search_slice_sound (query : string) (rs : list Passenger) :
  PyStr.truthy query = true ->
  forall r, r ∈ search_slice query rs ->
            r ∈ rs /\ PyStr.contains (PyStr.lower query) (sort_key r) = true.
Proof.
  remember (length rs) as n eqn:Hn. revert query rs Hn.
  induction n as [n IH] using lt_wf_ind. intros query rs -> Hq r.
  destruct rs as [|r0 rest]; [rewrite search_slice_empty; inversion 1|].
  rewrite search_slice_step.
  destruct (search_body_view query (r0 :: rest) Hq)
    as (at_mid & before & after & Hsorted & Hbefore & Hbody); [discriminate|].
  pose proof (search_body_shrinks query (r0 :: rest)) as Hshrink.
  assert (Hin : forall x, x ∈ (before ++ at_mid :: after)%list ->
                          x ∈ r0 :: rest).
  { intros x Hx. rewrite <- Hsorted in Hx.
    rewrite sort_by_name_perm in Hx. exact Hx. }
  rewrite Hbody in *.
  destruct (String.eqb (sort_key at_mid) (PyStr.lower query)) eqn:Heq.
  - intros ->%list_elem_of_singleton.
    split; [apply Hin, elem_of_app; right; left|].
    apply String.eqb_eq in Heq. rewrite Heq. apply contains_refl.
  - destruct (decide _).
    + destruct (PyStr.contains _ _) eqn:Hsub; [|inversion 1].
      intros ->%list_elem_of_singleton.
      split; [apply Hin, elem_of_app; right; left|exact Hsub].
    + assert (Hq' : PyStr.truthy (PyStr.lower query) = true)
        by (rewrite truthy_lower; exact Hq).
      destruct (PyStr.lt _ _); intros Hr.
      * apply (IH (length before)) in Hr as [Hr Hsub];
          [|apply (Hshrink _ _ eq_refl)|reflexivity|exact Hq'].
        rewrite lower_idem in Hsub.
        split; [apply Hin, elem_of_app; left; exact Hr|exact Hsub].
      * apply (IH (length (at_mid :: after))) in Hr as [Hr Hsub];
          [|apply (Hshrink _ _ eq_refl)|reflexivity|exact Hq'].
        rewrite lower_idem in Hsub.
        split; [apply Hin, elem_of_app; right; exact Hr|exact Hsub].
Qed.

(** X12: what a search returns for a query that is not empty is sound:
    every record returned is a record of the store, and its lowercased
    name contains the lowercased query. *)
Theorem search_result_sound
    (self : AirlineSystem) (query : string) (r : Passenger) :
  query <> "" ->
  r ∈ fst (search_reservations self query) ->
  r ∈ reservations self
  /\ PyStr.contains (PyStr.lower query) (PyStr.lower (name r)) = true.
Proof.
  intros Hq Hr. rewrite search_reservations_result in Hr.
  apply search_slice_sound in Hr; [exact Hr|].
  apply truthy_true. exact Hq.
Qed.

Lemma search_result_sound_witness :
  alice ∈ reservations (store_of [bob; alice])
  /\ PyStr.contains (PyStr.lower "ALI") (PyStr.lower (name alice)) = true.
Proof.
  apply (search_result_sound (store_of [bob; alice]) "ALI" alice).
  - discriminate.
  - vm_compute. left.
Defined.

Lemma search_slice_finds_exact (query : string) (rs : list Passenger) :
  PyStr.truthy query = true ->
  (exists r, r ∈ rs /\ sort_key r = PyStr.lower query) ->
  exists m, search_slice query rs = [m]
            /\ m ∈ rs /\ sort_key m = PyStr.lower query.
Proof.
  remember (length rs) as n eqn:Hn. revert query rs Hn.
  induction n as [n IH] using lt_wf_ind. intros query rs -> Hq (r & Hr & Hkey).
  assert (Hrs : rs <> []) by (intros ->; inversion Hr).
  rewrite search_slice_step.
  destruct (search_body_view query rs Hq Hrs)
    as (at_mid & before & after & Hsorted & Hbefore & Hbody).
  pose proof (search_body_shrinks query rs) as Hshrink.
  pose proof (sort_by_name_strongly_sorted rs) as Hss.
  assert (Hin : forall x, x ∈ (before ++ at_mid :: after)%list -> x ∈ rs).
  { intros x Hx. rewrite <- Hsorted in Hx.
    rewrite sort_by_name_perm in Hx. exact Hx. }
  assert (Hr' : r ∈ (before ++ at_mid :: after)%list)
    by (rewrite <- Hsorted, sort_by_name_perm; exact Hr).
  rewrite Hsorted in Hss. rewrite Hbody in *.
  assert (Hq' : PyStr.truthy (PyStr.lower query) = true)
    by (rewrite truthy_lower; exact Hq).
  destruct (String.eqb (sort_key at_mid) (PyStr.lower query)) eqn:Heq.
  { apply String.eqb_eq in Heq. exists at_mid.
    split; [reflexivity|]. split; [apply Hin, elem_of_app; right; left|].
    exact Heq. }
  apply String.eqb_neq in Heq.
  assert (Hnot_mid : r <> at_mid) by congruence.
  destruct (decide (length rs = 1)) as [Hone|Hmany].
  { exfalso.
    pose proof (sort_by_name_length rs) as Hlen.
    rewrite Hsorted, length_app in Hlen. cbn [length] in Hlen.
    assert (before = [] /\ after = []) as [-> ->]
      by (split; apply length_zero_iff_nil; lia).
    apply list_elem_of_singleton in Hr'. contradiction. }
  apply elem_of_app in Hr' as [Hleft|Hright].
  - (* the record is before the midpoint: its key is not above the midpoint's *)
    assert (Hle : key_le r at_mid).
    { eapply StronglySorted_app_1_elem_of; [exact Hss|exact Hleft|left]. }
    unfold key_le in Hle. rewrite Hkey in Hle.
    destruct (PyStr.lt (PyStr.lower query) (sort_key at_mid)) eqn:Hlt.
    + destruct (IH (length before) (Hshrink _ _ eq_refl)
                  (PyStr.lower query) before eq_refl Hq')
        as (m & Hm & Hmin & Hmkey).
      { exists r. split; [exact Hleft|]. rewrite lower_idem. exact Hkey. }
      exists m. split; [exact Hm|].
      split; [apply Hin, elem_of_app; left; exact Hmin|].
      rewrite lower_idem in Hmkey. exact Hmkey.
    + exfalso. apply Heq. symmetry. apply lt_total; assumption.
  - (* the record is at or after the midpoint *)
    apply elem_of_cons in Hright as [Hmid|Hafter]; [contradiction|].
    assert (Hle : key_le at_mid r).
    { apply StronglySorted_app_1_r in Hss.
      apply StronglySorted_cons in Hss as [Hall _].
      rewrite Forall_forall in Hall. apply Hall. exact Hafter. }
    unfold key_le in Hle. rewrite Hkey in Hle.
    rewrite Hle in *.
    destruct (IH (length (at_mid :: after)) (Hshrink _ _ eq_refl)
                (PyStr.lower query) (at_mid :: after) eq_refl Hq')
      as (m & Hm & Hmin & Hmkey).
    { exists r. split; [right; exact Hafter|]. rewrite lower_idem.
      exact Hkey. }
    exists m. split; [exact Hm|].
    split; [apply Hin, elem_of_app; right; exact Hmin|].
    rewrite lower_idem in Hmkey. exact Hmkey.
Qed.

(** X13: a search by full name always finds. When the query is not empty
    and some record of the store has the query as its name, letter case
    aside, the search returns exactly one record, of the store, whose name
    is the query, letter case aside. *)
Theorem search_finds_exact_name (self : AirlineSystem) (query : string) :
  query <> "" ->
  (exists r, r ∈ reservations self
             /\ PyStr.lower (name r) = PyStr.lower query) ->
  exists m, fst (search_reservations self query) = [m]
            /\ m ∈ reservations self
            /\ PyStr.lower (name m) = PyStr.lower query.
Proof.
  intros Hq Hex. rewrite search_reservations_result.
  apply search_slice_finds_exact; [apply truthy_true; exact Hq|exact Hex].
Qed.

Lemma search_finds_exact_name_witness :
  exists m, fst (search_reservations
                   (store_of [bob; alice_uc; alice_lc; alice]) "Bob") = [m]
            /\ m ∈ [bob; alice_uc; alice_lc; alice]
            /\ PyStr.lower (name m) = PyStr.lower "Bob".
Proof.
  apply (search_finds_exact_name
           (store_of [bob; alice_uc; alice_lc; alice]) "Bob").
  - discriminate.
  - exists bob. split; [left|reflexivity].
Defined.

(** X14: a search by part of a name can miss. It is not true that a query
    contained in the lowercased name of some record always gives a result:
    in a store that holds Bob and Alice, the query "lic" returns nothing
    (the midpoint of the sorted list is Bob, "lic" is not below "bob", and
    the half that is kept holds Bob alone). *)
Theorem search_misses_substrings :
  ~ (forall (self : AirlineSystem) (query : string) (r : Passenger),
       query <> "" ->
       r ∈ reservations self ->
       PyStr.contains (PyStr.lower query) (PyStr.lower (name r)) = true ->
       fst (search_reservations self query) <> []).
Proof.
  intros Hall.
  apply (Hall (store_of [bob; alice]) "lic" alice).
  - discriminate.
  - right; left.
  - reflexivity.
  - reflexivity.
Qed.

(** X15: on a store of one record the search is the substring test: for a
    query that is not empty it returns the record when the lowercased
    name contains the lowercased query, and nothing otherwise. *)
Theorem search_single_record
    (self : AirlineSystem) (query : string) (r : Passenger) :
  query <> "" ->
  reservations self = [r] ->
  fst (search_reservations self query)
  = if PyStr.contains (PyStr.lower query) (PyStr.lower (name r))
    then [r] else [].
Proof.
  intros Hq Hrs. apply truthy_true in Hq.
  unfold search_reservations, search_body. rewrite Hrs, Hq. cbn [negb].
  cbv beta iota zeta. cbn [sort_by_name insert_by_key length nth fst].
  change (1 / 2) with 0. cbn [nth].
  destruct (String.eqb _ _) eqn:Heq.
  - apply String.eqb_eq in Heq. rewrite Heq, contains_refl. reflexivity.
  - destruct (decide (1 = 1)); [|congruence]. reflexivity.
Qed.

Lemma search_single_record_witness :
  fst (search_reservations (store_of [alice]) "LIC") = [alice].
Proof.
  apply (search_single_record (store_of [alice]) "LIC" alice).
  - discriminate.
  - reflexivity.
Defined.

Lemma sort_by_name_of_sorted (rs : list Passenger) :
  Sorted key_le rs -> sort_by_name rs = rs.
Proof.
  induction 1 as [|r rest Hs IH Hhd]; [reflexivity|].
  cbn [sort_by_name]. rewrite IH.
  destruct Hhd as [|r' rest' Hle]; [reflexivity|].
  cbn [insert_by_key]. unfold key_le in Hle. rewrite Hle. reflexivity.
Qed.

Lemma sort_by_name_idem (rs : list Passenger) :
  sort_by_name (sort_by_name rs) = sort_by_name rs.
Proof. apply sort_by_name_of_sorted, sort_by_name_sorted. Qed.

Lemma search_body_of_sorted (query : string) (rs : list Passenger) :
  PyStr.truthy query = true ->
  fst (search_body query (sort_by_name rs)) = fst (search_body query rs).
Proof.
  intros Hq. destruct (decide (rs = [])) as [->|Hrs]; [reflexivity|].
  assert (Hrs' : sort_by_name rs <> []).
  { intros Hnil. apply Hrs. apply length_zero_iff_nil.
    rewrite <- sort_by_name_length, Hnil. reflexivity. }
  destruct (search_body_view query rs Hq Hrs)
    as (m & before & after & Hsorted & Hbefore & ->).
  destruct (search_body_view query _ Hq Hrs')
    as (m' & before' & after' & Hsorted' & Hbefore' & ->).
  rewrite sort_by_name_idem, Hsorted in Hsorted'.
  rewrite sort_by_name_length in *.
  apply app_inj_1 in Hsorted' as [-> [= -> ->]]; [reflexivity|lia].
Qed.

(** X16: searching does not disturb later searches. After any search, a
    search with a query that is not empty returns what it would have
    returned before; and once a search with a query that is not empty has
    been made, such searches leave the store exactly as it is. *)
Theorem search_after_search
    (self : AirlineSystem) (query1 query2 : string) :
  query2 <> "" ->
  let self1 := snd (search_reservations self query1) in
  fst (search_reservations self1 query2)
  = fst (search_reservations self query2)
  /\ (query1 <> "" -> snd (search_reservations self1 query2) = self1).
Proof.
  intros Hq2 self1. apply truthy_true in Hq2. subst self1.
  rewrite !search_store_after, !search_reservations_result.
  cbn [reservations set_reservations]. rewrite Hq2. split.
  - destruct (PyStr.truthy query1); [|reflexivity].
    rewrite (search_slice_step _ (sort_by_name _)), search_body_of_sorted
      by exact Hq2.
    symmetry. apply search_slice_step.
  - intros Hq1. apply truthy_true in Hq1. rewrite Hq1.
    rewrite sort_by_name_idem. reflexivity.
Qed.

Lemma search_after_search_witness :
  fst (search_reservations
         (snd (search_reservations (store_of [bob; alice_uc; alice]) "zed"))
         "alice")
  = fst (search_reservations (store_of [bob; alice_uc; alice]) "alice").
Proof.
  apply (search_after_search (store_of [bob; alice_uc; alice]) "zed" "alice").
  discriminate.
Defined.

(** * A file with a record that cannot be read *)





(** * The command line: [display_menu] and [main] *)

(** The terminal: the lines still to be read from standard input, and
    what was written to standard output, piece by piece in order. *)
Record Console : Type := mkConsole {
  stdin : list string;
  stdout : list string
}.

(** How a piece of the menu loop ends: with a value, with the [EOFError]
    of [input], or with another exception. *)
Inductive Signal (A : Type) : Type :=
| Value (a : A)
| EOFError
| Raised (e : exn).
Arguments Value {A} a.
Arguments EOFError {A}.
Arguments Raised {A} e.

Definition Cli (A : Type) : Type := World -> Console -> Signal A * World * Console.

Definition cli_ret {A} (a : A) : Cli A := fun w con => (Value a, w, con).

Definition cli_bind {A B} (c : Cli A) (k : A -> Cli B) : Cli B :=
  fun w con =>
    match c w con with
    | (Value a, w', con') => k a w' con'
    | (EOFError, w', con') => (EOFError, w', con')
    | (Raised e, w', con') => (Raised e, w', con')
    end.

Notation "'let+' x ':=' c 'in' k" := (cli_bind c (fun x => k))
  (at level 10, x pattern, c at level 100, k at level 200).

(** A method of the store, run from the command line. *)
Definition call {A} (c : Py A) : Cli A :=
  fun w con =>
    match c w with
    | (Return a, w') => (Value a, w', con)
    | (Raise e, w') => (Raised e, w', con)
    end.

(** [print(s)] *)
Definition print (s : string) : Cli unit :=
  fun w con =>
    (Value tt, w,
     {| stdin := stdin con; stdout := stdout con ++ [s ++ PyStr.newline] |}).

(** [input(prompt)]: the prompt is written, then a line is read; at the
    end of the input [EOFError] is raised. *)
Definition input (prompt : string) : Cli string :=
  fun w con =>
    match stdin con with
    | [] => (EOFError, w, {| stdin := []; stdout := stdout con ++ [prompt] |})
    | line :: rest =>
        (Value line, w, {| stdin := rest; stdout := stdout con ++ [prompt] |})
    end.

(** [for x in xs: print(f x)] *)
Fixpoint print_each {A} (f : A -> string) (xs : list A) : Cli unit :=
  match xs with
  | [] => cli_ret tt
  | x :: xs' => let+ _ := print (f x) in print_each f xs'
  end.

(** [display_menu] *)
Definition display_menu : Cli unit :=
  let+ _ := print (PyStr.newline ++ "Airline Ticket Reservation System") in
  let+ _ := print "1. Book a Ticket" in
  let+ _ := print "2. Cancel a Reservation" in
  let+ _ := print "3. View All Reservations" in
  let+ _ := print "4. Search Reservations" in
  print "5. Exit".

(** [str(e)] where the program prints an exception. Only a [ValueError]
    reaches these places ([book_ticket] raises nothing else); the text of
    the others is made by the library and is not modelled. *)
Definition exn_str (e : exn) : string :=
  match e with
  | ValueError msg => msg
  | _ => ""
  end.

(** [res[key]] inside the f-string of the listing, for the dicts
    [view_reservations] returns, which hold a string under each key. *)
Definition item_str (res : json) (key : string) : string :=
  match res with
  | JObj members =>
      match assoc key members with
      | Some (JStr s) => s
      | _ => ""
      end
  | _ => ""
  end.

(** The line of the listing (menu choice 3), from a dict. *)
Definition listing_line (res : json) : string :=
  "ID: " ++ item_str res "booking_id" ++ ", Name: " ++ item_str res "name"
  ++ ", Passport: " ++ item_str res "passport"
  ++ ", Flight: " ++ item_str res "flight_no"
  ++ ", Seat: " ++ item_str res "seat".

(** The line of the search results (menu choice 4), from a record. *)
Definition result_line (res : Passenger) : string :=
  "ID: " ++ booking_id res ++ ", Name: " ++ name res
  ++ ", Passport: " ++ passport res
  ++ ", Flight: " ++ flight_no res
  ++ ", Seat: " ++ seat res.

(** How an iteration of the menu loop goes on: with the next iteration, on
    the store as it is now, or with [break]. *)
Inductive LoopStep : Type :=
| Continue (system : AirlineSystem)
| Break.

(** Menu choice 1. The inner [try] catches the [ValueError] of
    [book_ticket]; another exception goes on to the handler of the
    loop. *)
Definition choice_book (system : AirlineSystem) : Cli LoopStep :=
  let+ _ := print (PyStr.newline ++ "Available flights:" ++ " "
                   ++ String.concat ", " (available_flights system)) in
  let+ name_line := input "Enter name: " in
  let+ passport_line :=
    input "Enter passport number (9 alphanumeric characters): " in
  let+ flight_line := input "Enter flight number: " in
  let+ _ := print ("Available seats:" ++ " "
                   ++ String.concat ", " (take 10 (seats system))
                   ++ " " ++ "...") in
  let+ seat_line := input "Enter seat (e.g., 1A): " in
  fun w con =>
    match book_ticket system (PyStr.strip name_line)
            (PyStr.strip passport_line) (PyStr.strip flight_line)
            (PyStr.strip seat_line) w with
    | (Return (id, system'), w') =>
        (let+ _ := print ("Booking confirmed! Booking ID: " ++ id) in
         cli_ret (Continue system')) w' con
    | (Raise (ValueError msg), w') =>
        (let+ _ := print ("Error: " ++ msg) in
         cli_ret (Continue system)) w' con
    | (Raise e, w') => (Raised e, w', con)
    end.

(** Menu choice 2. *)
Definition choice_cancel (system : AirlineSystem) : Cli LoopStep :=
  let+ id_line := input "Enter booking ID to cancel: " in
  let+ (found, system') :=
    call (cancel_reservation system (PyStr.strip id_line)) in
  let+ _ := print (if found : bool then "Reservation cancelled successfully"
                   else "Booking ID not found") in
  cli_ret (Continue system').

(** Menu choice 3. *)
Definition choice_view (system : AirlineSystem) : Cli LoopStep :=
  let reservations := view_reservations system in
  let+ _ :=
    match reservations with
    | [] => print "No reservations found"
    | _ :: _ =>
        let+ _ := print (PyStr.newline ++ "All Reservations:") in
        print_each listing_line reservations
    end in
  cli_ret (Continue system).

(** Menu choice 4. *)
Definition choice_search (system : AirlineSystem) : Cli LoopStep :=
  let+ query_line := input "Enter name to search: " in
  let (results, system') :=
    search_reservations system (PyStr.strip query_line) in
  let+ _ :=
    match results with
    | [] => print "No matching reservations found"
    | _ :: _ =>
        let+ _ := print (PyStr.newline ++ "Search Results:") in
        print_each result_line results
    end in
  cli_ret (Continue system').

(** The body of the [try] of the loop. *)
Definition menu_choice (system : AirlineSystem) : Cli LoopStep :=
  let+ choice_line := input "Enter your choice (1-5): " in
  let choice := PyStr.strip choice_line in
  if String.eqb choice "1" then choice_book system
  else if String.eqb choice "2" then choice_cancel system
  else if String.eqb choice "3" then choice_view system
  else if String.eqb choice "4" then choice_search system
  else if String.eqb choice "5" then
    let+ _ := print "Exiting system. Goodbye!" in cli_ret Break
  else
    let+ _ := print "Invalid choice. Please select 1-5." in
    cli_ret (Continue system).

(** One iteration of [while True]: the menu, the [try] and its two
    handlers. *)
Definition menu_iteration (system : AirlineSystem) (w : World) (con : Console)
  : LoopStep * World * Console :=
  match (let+ _ := display_menu in menu_choice system) w con with
  | (Value step, w', con') => (step, w', con')
  | (EOFError, w', con') =>
      match print (PyStr.newline ++ "EOF detected. Exiting system.") w' con'
      with (_, w'', con'') => (Break, w'', con'') end
  | (Raised e, w', con') =>
      match print ("An error occurred: " ++ exn_str e) w' con'
      with (_, w'', con'') => (Continue system, w'', con'') end
  end.

(** ** What is left of the input *)

(** A piece of the loop only reads: the input left afterwards is an end
    part of the input before. *)
Definition reads_on {A} (c : Cli A) : Prop :=
  forall w con, stdin (snd (c w con)) `suffix_of` stdin con.

Lemma reads_on_ret {A} (a : A) : reads_on (cli_ret a).
Proof. intros w con. reflexivity. Qed.

Lemma reads_on_print s : reads_on (print s).
Proof. intros w con. reflexivity. Qed.

Lemma reads_on_input prompt : reads_on (input prompt).
Proof.
  intros w con. unfold input. destruct (stdin con) as [|line rest]; cbn.
  - reflexivity.
  - apply suffix_cons_r. reflexivity.
Qed.

Lemma reads_on_call {A} (c : Py A) : reads_on (call c).
Proof.
  intros w con. unfold call. destruct (c w) as [[a|e] w']; reflexivity.
Qed.

Lemma reads_on_bind {A B} (c : Cli A) (k : A -> Cli B) :
  reads_on c -> (forall a, reads_on (k a)) -> reads_on (cli_bind c k).
Proof.
  intros Hc Hk w con. unfold cli_bind. specialize (Hc w con).
  destruct (c w con) as [[[a| |e] w'] con']; cbn [snd] in *;
    try exact Hc.
  etransitivity; [apply Hk|exact Hc].
Qed.

Lemma reads_on_print_each {A} (f : A -> string) (xs : list A) :
  reads_on (print_each f xs).
Proof.
  induction xs as [|x xs IH]; cbn [print_each].
  - apply reads_on_ret.
  - apply reads_on_bind; [apply reads_on_print|intros _; exact IH].
Qed.

Lemma reads_on_display_menu : reads_on display_menu.
Proof.
  unfold display_menu.
  repeat (apply reads_on_bind; [apply reads_on_print|intros _]).
  apply reads_on_print.
Qed.

Lemma reads_on_choice_book system : reads_on (choice_book system).
Proof.
  unfold choice_book.
  apply reads_on_bind; [apply reads_on_print|intros _].
  repeat (apply reads_on_bind; [apply reads_on_input|intros ?]).
  apply reads_on_bind; [apply reads_on_print|intros _].
  apply reads_on_bind; [apply reads_on_input|intros ?].
  intros w con.
  destruct (book_ticket _ _ _ _ _ w) as [[[id system']|[]] w'];
    reflexivity.
Qed.

Lemma reads_on_choice_cancel system : reads_on (choice_cancel system).
Proof.
  unfold choice_cancel.
  apply reads_on_bind; [apply reads_on_input|intros ?].
  apply reads_on_bind; [apply reads_on_call|intros [found system']].
  apply reads_on_bind; [apply reads_on_print|intros _]. apply reads_on_ret.
Qed.

Lemma reads_on_choice_view system : reads_on (choice_view system).
Proof.
  unfold choice_view. cbv zeta.
  apply reads_on_bind; [|intros _; apply reads_on_ret].
  destruct (view_reservations system); [apply reads_on_print|].
  apply reads_on_bind; [apply reads_on_print|intros _].
  apply reads_on_print_each.
Qed.

Lemma reads_on_choice_search system : reads_on (choice_search system).
Proof.
  unfold choice_search.
  apply reads_on_bind; [apply reads_on_input|intros query_line].
  destruct (search_reservations _ _) as [results system'].
  apply reads_on_bind; [|intros _; apply reads_on_ret].
  destruct results; [apply reads_on_print|].
  apply reads_on_bind; [apply reads_on_print|intros _].
  apply reads_on_print_each.
Qed.

Lemma reads_on_dispatch system choice_line :
  reads_on
    (let choice := PyStr.strip choice_line in
     if String.eqb choice "1" then choice_book system
     else if String.eqb choice "2" then choice_cancel system
     else if String.eqb choice "3" then choice_view system
     else if String.eqb choice "4" then choice_search system
     else if String.eqb choice "5" then
       let+ _ := print "Exiting system. Goodbye!" in cli_ret Break
     else
       let+ _ := print "Invalid choice. Please select 1-5." in
       cli_ret (Continue system)).
Proof.
  cbv zeta.
  destruct (String.eqb _ "1"); [apply reads_on_choice_book|].
  destruct (String.eqb _ "2"); [apply reads_on_choice_cancel|].
  destruct (String.eqb _ "3"); [apply reads_on_choice_view|].
  destruct (String.eqb _ "4"); [apply reads_on_choice_search|].
  destruct (String.eqb _ "5");
    (apply reads_on_bind; [apply reads_on_print|intros _; apply reads_on_ret]).
Qed.

Lemma display_menu_value (w : World) (con : Console) :
  exists out,
    display_menu w con
    = (Value tt, w, {| stdin := stdin con; stdout := stdout con ++ out |}).
Proof.
  eexists. unfold display_menu, cli_bind, print. cbn [stdin stdout].
  rewrite <- !app_assoc. reflexivity.
Qed.

(** An iteration that goes on to the next has read at least the line of
    the choice. *)
Lemma menu_iteration_reads
    (system system' : AirlineSystem) (w w' : World) (con con' : Console) :
  menu_iteration system w con = (Continue system', w', con') ->
  length (stdin con') < length (stdin con).
Proof.
  unfold menu_iteration, cli_bind at 1.
  destruct (display_menu_value w con) as [out ->].
  unfold menu_choice, cli_bind at 1, input at 1. cbn [stdin stdout].
  destruct (stdin con) as [|choice_line rest] eqn:Hin; [cbn; discriminate|].
  set (con1 := {| stdin := rest; stdout := _ |}).
  pose proof (reads_on_dispatch system choice_line w con1) as Hrest.
  apply suffix_length in Hrest. cbv zeta in Hrest.
  destruct (_ w con1) as [[[step| |e] w1] con2] eqn:Hrun;
    cbn [snd stdin con1] in Hrest.
  - intros [= -> -> ->]. cbn [length]. lia.
  - cbn. discriminate.
  - cbn. intros [= _ _ <-]. cbn [stdin length] in *. lia.
Qed.

(** [while True: ...]: the iterations up to the [break]. Each iteration
    that goes on has read a line, so the loop ends on every input. *)
Equations? main_loop (system : AirlineSystem) (w : World) (con : Console)
  : World * Console by wf (length (stdin con)) lt :=
  main_loop system w con with inspect (menu_iteration system w con) := {
    | exist _ (Continue system', w', con') H := main_loop system' w' con'
    | exist _ (Break, w', con') _ := (w', con') }.
Proof. eapply menu_iteration_reads; eassumption. Qed.

(** [main]: the store is made outside the [try], so an exception of the
    constructor leaves [main]. *)
Definition main (w : World) (con : Console) : Outcome unit * World * Console :=
  match AirlineSystem_init "reservations.json" w with
  | (Return system, w') =>
      let (w'', con') := main_loop system w' con in (Return tt, w'', con')
  | (Raise e, w') => (Raise e, w', con)
  end.

Lemma main_loop_step (system : AirlineSystem) (w : World) (con : Console) :
  main_loop system w con =
  match menu_iteration system w con with
  | (Continue system', w', con') => main_loop system' w' con'
  | (Break, w', con') => (w', con')
  end.
Proof.
  simp main_loop. unfold inspect.
  generalize (@eq_refl _ (menu_iteration system w con)).
  generalize (menu_iteration system w con) at 2 4 5.
  intros [[[system'|] w'] con'] H; simp main_loop; reflexivity.
Qed.

(** ** What one iteration does to the store and to the world *)

(** At most one operation of the store, on stripped lines of the input. *)
Inductive store_step :
  AirlineSystem -> World -> AirlineSystem -> World -> Prop :=
| step_none system w : store_step system w system w
| step_book system w name_line passport_line flight_line seat_line
    id system' w' :
    book_ticket system (PyStr.strip name_line) (PyStr.strip passport_line)
      (PyStr.strip flight_line) (PyStr.strip seat_line) w
    = (Return (id, system'), w') ->
    store_step system w system' w'
| step_cancel system w id_line found system' w' :
    cancel_reservation system (PyStr.strip id_line) w
    = (Return (found, system'), w') ->
    store_step system w system' w'
| step_search system w query_line :
    store_step system w
      (snd (search_reservations system (PyStr.strip query_line))) w.

(** How a menu choice from 1 to 4 can end. *)
Definition choice_ok (system : AirlineSystem) (w : World)
    (r : Signal LoopStep * World * Console) : Prop :=
  match r with
  | (Value (Continue system'), w', _) => store_step system w system' w'
  | (Value Break, _, _) => False
  | (EOFError, w', con') => w' = w /\ stdin con' = []
  | (Raised _, _, _) => False
  end.

Lemma print_each_value {A} (f : A -> string) (xs : list A) (w : World) :
  forall con, exists out,
    print_each f xs w con
    = (Value tt, w, {| stdin := stdin con; stdout := stdout con ++ out |}).
Proof.
  induction xs as [|x xs IH]; intros con; cbn [print_each].
  - exists []. unfold cli_ret. rewrite app_nil_r. destruct con; reflexivity.
  - unfold cli_bind, print at 1.
    destruct (IH {| stdin := stdin con;
                    stdout := stdout con ++ [f x ++ PyStr.newline] |})
      as [out ->].
    cbn [stdin stdout]. rewrite <- app_assoc. eexists. reflexivity.
Qed.

Lemma choice_book_ok system w con : choice_ok system w (choice_book system w con).
Proof.
  unfold choice_book, cli_bind, input, print. cbn [stdin stdout].
  destruct (stdin con) as [|l1 [|l2 [|l3 [|l4 rest]]]];
    cbn [stdin stdout choice_ok]; try (split; reflexivity).
  destruct (book_ticket system _ _ _ _ w) as [[[id system']|e] w'] eqn:Hrun.
  - unfold cli_ret. cbn. eapply step_book. exact Hrun.
  - apply book_ticket_raises in Hrun as (-> & _ & He).
    repeat (apply elem_of_cons in He as [->|He];
            [unfold cli_ret; cbn; apply step_none|]).
    inversion He.
Qed.

Lemma choice_cancel_ok system w con :
  choice_ok system w (choice_cancel system w con).
Proof.
  unfold choice_cancel, cli_bind, input, call. cbn [stdin stdout].
  destruct (stdin con) as [|l1 rest]; cbn [choice_ok]; [split; reflexivity|].
  destruct (cancel_reservation system (PyStr.strip l1) w)
    as [[[found system']|e] w'] eqn:Hrun.
  - unfold print, cli_ret. cbn. eapply step_cancel. exact Hrun.
  - rewrite cancel_reservation_filter in Hrun. cbv zeta in Hrun.
    destruct (decide _); discriminate.
Qed.

Lemma choice_view_ok system w con :
  choice_ok system w (choice_view system w con).
Proof.
  unfold choice_view, cli_bind. cbv zeta.
  destruct (view_reservations system) as [|d ds].
  - unfold print, cli_ret. cbn. apply step_none.
  - unfold print at 1.
    destruct (print_each_value listing_line (d :: ds) w
                {| stdin := stdin con;
                   stdout := stdout con ++
                     [(PyStr.newline ++ "All Reservations:") ++ PyStr.newline] |})
      as [out ->].
    unfold cli_ret. cbn. apply step_none.
Qed.

Lemma choice_search_ok system w con :
  choice_ok system w (choice_search system w con).
Proof.
  unfold choice_search, cli_bind, input. cbn [stdin stdout].
  destruct (stdin con) as [|l1 rest]; cbn [choice_ok]; [split; reflexivity|].
  pose proof (step_search system w l1) as Hstep.
  destruct (search_reservations system (PyStr.strip l1))
    as [[|r results] system']; cbn [snd] in Hstep.
  - unfold print, cli_ret. cbn. exact Hstep.
  - unfold print at 1.
    match goal with
    | |- context [print_each result_line ?xs w ?c] =>
        destruct (print_each_value result_line xs w c) as [out ->]
    end.
    unfold cli_ret. cbn. exact Hstep.
Qed.

Definition goodbye_line : string :=
  "Exiting system. Goodbye!" ++ PyStr.newline.

Definition eof_line : string :=
  (PyStr.newline ++ "EOF detected. Exiting system.") ++ PyStr.newline.

(** How the loop can have ended, seen on the terminal: on the choice 5, or
    at the end of the input. *)
Definition ended (con : Console) : Prop :=
  last (stdout con) = Some goodbye_line
  \/ (last (stdout con) = Some eof_line /\ stdin con = []).

Lemma menu_iteration_effect
    (system : AirlineSystem) (w w' : World) (con con' : Console)
    (step : LoopStep) :
  menu_iteration system w con = (step, w', con') ->
  match step with
  | Continue system' => store_step system w system' w'
  | Break => w' = w /\ ended con'
  end.
Proof.
  unfold menu_iteration, cli_bind at 1.
  destruct (display_menu_value w con) as [out ->].
  unfold menu_choice, cli_bind at 1, input at 1. cbn [stdin stdout].
  destruct (stdin con) as [|choice_line rest].
  { unfold print. cbn [stdin stdout]. intros [= <- <- <-].
    split; [reflexivity|]. right. cbn [stdin stdout].
    split; [apply last_snoc|reflexivity]. }
  set (con1 := {| stdin := rest; stdout := _ |}). cbv zeta.
  assert (Hchoice : forall c : Cli LoopStep,
            choice_ok system w (c w con1) ->
            match c w con1 with
            | (Value step0, w0, con0) => (step0, w0, con0)
            | (EOFError, w0, con0) =>
                match print (PyStr.newline ++ "EOF detected. Exiting system.")
                        w0 con0
                with (_, w1, con2) => (Break, w1, con2) end
            | (Raised e, w0, con0) =>
                match print ("An error occurred: " ++ exn_str e) w0 con0
                with (_, w1, con2) => (Continue system, w1, con2) end
            end = (step, w', con') ->
            match step with
            | Continue system' => store_step system w system' w'
            | Break => w' = w /\ ended con'
            end).
  { intros c Hok.
    destruct (c w con1) as [[[[system'|]| |e] w0] con0]; cbn [choice_ok] in Hok;
      try contradiction.
    - intros [= <- <- <-]. exact Hok.
    - destruct Hok as [-> Hstdin]. unfold print. cbn [stdin stdout].
      intros [= <- <- <-]. split; [reflexivity|]. right. cbn [stdin stdout].
      split; [apply last_snoc|exact Hstdin]. }
  destruct (String.eqb _ "1"); [apply Hchoice, choice_book_ok|].
  destruct (String.eqb _ "2"); [apply Hchoice, choice_cancel_ok|].
  destruct (String.eqb _ "3"); [apply Hchoice, choice_view_ok|].
  destruct (String.eqb _ "4"); [apply Hchoice, choice_search_ok|].
  destruct (String.eqb _ "5").
  - unfold cli_bind, print, cli_ret. cbn [stdin stdout].
    intros [= <- <- <-]. split; [reflexivity|]. left. apply last_snoc.
  - unfold cli_bind, print, cli_ret. cbn [stdin stdout].
    intros [= <- <- <-]. apply step_none.
Qed.

(** X18: the menu loop ends on every input, and only in two ways. Each
    iteration that goes on to the next has read at least one line of the
    input; and when [main] returns, the last thing written is the goodbye
    line of the choice 5, or it is the end-of-input line and the input has
    been read to its end. *)
Theorem main_loop_ends :
  (forall (system system' : AirlineSystem) (w w' : World)
          (con con' : Console),
     menu_iteration system w con = (Continue system', w', con') ->
     length (stdin con') < length (stdin con))
  /\ (forall (system : AirlineSystem) (w : World) (con : Console),
        ended (snd (main_loop system w con)))
  /\ (forall (w w' : World) (con con' : Console),
        main w con = (Return tt, w', con') -> ended con').
Proof.
  assert (Hloop : forall (system : AirlineSystem) (w : World) (con : Console),
            ended (snd (main_loop system w con))).
  { intros system w con.
    remember (length (stdin con)) as n eqn:Hn. revert system w con Hn.
    induction n as [n IH] using lt_wf_ind. intros system w con ->.
    rewrite main_loop_step.
    destruct (menu_iteration system w con) as [[[system'|] w'] con'] eqn:Hit.
    - eapply IH; [|reflexivity]. eapply menu_iteration_reads. exact Hit.
    - apply menu_iteration_effect in Hit as [_ Hend]. exact Hend. }
  split; [exact menu_iteration_reads|]. split; [exact Hloop|].
  intros w w' con con'. unfold main.
  destruct (AirlineSystem_init _ w) as [[system|e] w0]; [|discriminate].
  pose proof (Hloop system w0 con) as Hend.
  destruct (main_loop system w0 con) as [w1 con1]. cbn [snd] in Hend.
  intros [= <- <-]. exact Hend.
Qed.

Lemma main_loop_ends_witness :
  length (stdin (snd (menu_iteration (store_of [bob]) two_days
                        {| stdin := ["3"; " 5 "; "1"]; stdout := [] |})))
  < length ["3"; " 5 "; "1"].
Proof.
  apply (proj1 main_loop_ends (store_of [bob]) (store_of [bob])
           two_days two_days {| stdin := ["3"; " 5 "; "1"]; stdout := [] |}).
  vm_compute. reflexivity.
Defined.

(** * The passport as the command line passes it *)

Lemma rstrip_last (s : string) : forall p c,
  PyStr.rstrip s = p ++ String c EmptyString -> PyStr.isspace c = false.
Proof.
  induction s as [|a s IH]; intros p c; cbn [PyStr.rstrip].
  - destruct p; discriminate.
  - destruct (PyStr.rstrip s) as [|b r] eqn:Hr.
    + destruct (PyStr.isspace a) eqn:Ha; [destruct p; discriminate|].
      destruct p as [|x [|y p]]; [|discriminate|discriminate].
      intros [= ->]. exact Ha.
    + destruct p as [|x p]; [discriminate|].
      rewrite append_cons. intros [= _ Heq]. apply (IH p c Heq).
Qed.

Lemma strip_no_newline_end (line p : string) :
  PyStr.strip line <> p ++ PyStr.newline.
Proof.
  unfold PyStr.strip, PyStr.newline. intros Heq.
  apply rstrip_last in Heq. discriminate.
Qed.

Lemma validate_stripped (line : string) :
  validate_passport (PyStr.strip line) = true <->
  String.length (PyStr.strip line) = 9
  /\ all_upper_or_digit (PyStr.strip line) = true.
Proof.
  rewrite validate_passport_spec. split.
  - intros (p & Hlen & Hall & [Heq|Heq]).
    + rewrite Heq. split; assumption.
    + exfalso. apply (strip_no_newline_end _ _ Heq).
  - intros [Hlen Hall]. exists (PyStr.strip line). repeat split; auto.
Qed.

(** X19: the passport [main] passes to [book_ticket] is the line typed,
    stripped, and for it the check is exact: it is accepted if and only if
    it has exactly nine characters, each an upper-case letter A-Z or a
    digit. (A stripped line cannot end in the newline that the pattern
    would let through.) *)
Theorem stripped_passport_exact (passport_line : string) :
  validate_passport (PyStr.strip passport_line) = true <->
  String.length (PyStr.strip passport_line) = 9
  /\ all_upper_or_digit (PyStr.strip passport_line) = true.
Proof. apply validate_stripped. Qed.

(** * The file [main] leaves behind *)

(** A record as a booking from the command line makes it. *)
Definition record_exact (r : Passenger) : Prop :=
  PyStr.strip (name r) <> ""
  /\ String.length (passport r) = 9
  /\ all_upper_or_digit (passport r) = true
  /\ flight_no r ∈ all_flights
  /\ seat r ∈ all_seats.

Definition records_good (rs : list Passenger) : Prop :=
  Forall record_exact rs /\ seats_distinct rs.

(** No reservations file, or one that holds the listing of good
    records. *)
Definition file_good (w : World) : Prop :=
  files w !! "reservations.json" = None
  \/ exists rs,
       files w !! "reservations.json" = Some (JsonText (JArr (map to_dict rs)))
       /\ records_good rs.

Definition session_good (system : AirlineSystem) (w : World) : Prop :=
  data_file system = "reservations.json"
  /\ available_flights system = all_flights
  /\ seats system = all_seats
  /\ records_good (reservations system)
  /\ file_good w.

Lemma records_good_same_fields (rs rs' : list Passenger) :
  Forall2 same_fields rs rs' -> records_good rs -> records_good rs'.
Proof.
  intros Hsame [Hexact Hdistinct]. split.
  - clear Hdistinct. induction Hsame as [|r r' rs rs' Hr _ IH];
      [constructor|].
    apply Forall_cons in Hexact as [He Hexact].
    constructor; [|apply IH; exact Hexact].
    destruct Hr as (Hn & Hp & Hf & Hs). unfold record_exact in *.
    rewrite Hn, Hp, Hf, Hs. exact He.
  - unfold seats_distinct in *.
    replace (map seat_key rs') with (map seat_key rs); [exact Hdistinct|].
    clear -Hsame. induction Hsame as [|r r' rs rs' Hr _ IH]; [reflexivity|].
    cbn [map]. rewrite IH. f_equal.
    destruct Hr as (_ & _ & Hf & Hs). unfold seat_key. rewrite Hf, Hs.
    reflexivity.
Qed.

Lemma file_good_written (system : AirlineSystem) (w : World) :
  data_file system = "reservations.json" ->
  records_good (reservations system) ->
  file_good (write_file (data_file system)
               (JsonText (JArr (view_reservations system))) w).
Proof.
  intros Hpath Hgood. right. exists (reservations system).
  split; [|exact Hgood]. rewrite Hpath. unfold write_file. cbn [files].
  apply lookup_insert_eq.
Qed.

Lemma store_step_good (system system' : AirlineSystem) (w w' : World) :
  session_good system w -> store_step system w system' w' ->
  session_good system' w'.
Proof.
  intros (Hpath & Hflights & Hseats & [Hexact Hdistinct] & Hfile) Hstep.
  destruct Hstep as [system w
                    |system w nl pl fl sl id system' w' Hrun
                    |system w il found system' w' Hrun
                    |system w ql].
  - repeat split; assumption.
  - pose proof (book_ticket_returns_bookable _ _ _ _ _ _ _ _ _ Hrun)
      as (Hname & Hpass & Hfl & Hst & Hfree).
    apply book_ticket_success in Hrun as (_ & -> & ->).
    assert (Hgood : records_good
              (reservations system ++
               [{| name := PyStr.strip nl; passport := PyStr.strip pl;
                   flight_no := PyStr.strip fl; seat := PyStr.strip sl;
                   booking_id := id |}])).
    { split.
      - apply Forall_app. split; [exact Hexact|].
        constructor; [|constructor].
        apply validate_stripped in Hpass as [Hlen Hall].
        rewrite Hflights in Hfl. rewrite Hseats in Hst.
        repeat split; assumption.
      - unfold seats_distinct. rewrite map_app. apply NoDup_app.
        split; [exact Hdistinct|]. split; [|apply NoDup_singleton].
        intros k Hk Hnew. apply list_elem_of_singleton in Hnew. subst k.
        apply list_elem_of_fmap in Hk as (r & Hkey & Hin).
        injection Hkey as Hf Hs. apply (Hfree r Hin). split; congruence. }
    split; [exact Hpath|]. split; [exact Hflights|]. split; [exact Hseats|].
    split; [exact Hgood|].
    apply (file_good_written (set_reservations system _)); assumption.
  - rewrite cancel_reservation_filter in Hrun. cbv zeta in Hrun.
    assert (Hgood : records_good
              (filter (fun r => booking_id r ≠ PyStr.strip il)
                 (reservations system))).
    { split.
      - apply Forall_forall. intros r [_ Hin]%list_elem_of_filter.
        rewrite Forall_forall in Hexact. apply (Hexact r Hin).
      - apply seats_distinct_filter. exact Hdistinct. }
    destruct (decide _); injection Hrun as <- <- <-;
      (split; [exact Hpath|]); (split; [exact Hflights|]);
      (split; [exact Hseats|]); (split; [exact Hgood|]).
    + apply (file_good_written (set_reservations system _)); assumption.
    + exact Hfile.
  - rewrite search_store_after.
    split; [exact Hpath|]. split; [exact Hflights|]. split; [exact Hseats|].
    split; [|exact Hfile]. cbn [reservations set_reservations].
    destruct (PyStr.truthy _); [|split; assumption].
    split.
    + rewrite sort_by_name_perm. exact Hexact.
    + unfold seats_distinct. rewrite sort_by_name_perm. exact Hdistinct.
Qed.

Lemma main_loop_good (system : AirlineSystem) (w : World) (con : Console) :
  session_good system w -> file_good (fst (main_loop system w con)).
Proof.
  remember (length (stdin con)) as n eqn:Hn. revert system w con Hn.
  induction n as [n IH] using lt_wf_ind. intros system w con -> Hgood.
  rewrite main_loop_step.
  destruct (menu_iteration system w con) as [[[system'|] w'] con'] eqn:Hit.
  - eapply IH; [eapply menu_iteration_reads; exact Hit|reflexivity|].
    apply menu_iteration_effect in Hit.
    eapply store_step_good; eassumption.
  - apply menu_iteration_effect in Hit as [-> _].
    destruct Hgood as (_ & _ & _ & _ & Hfile). exact Hfile.
Qed.

Lemma init_good (w : World) :
  file_good w ->
  exists system w',
    AirlineSystem_init "reservations.json" w = (Return system, w')
    /\ session_good system w'.
Proof.
  intros [Hnone|(rs & Hfile & Hgood)].
  - exists (fresh_store "reservations.json"), w.
    split; [apply init_no_file; exact Hnone|].
    split; [reflexivity|]. split; [reflexivity|]. split; [reflexivity|].
    split; [split; constructor|left; exact Hnone].
  - eexists _, _. split; [apply init_after_save; exact Hfile|].
    split; [reflexivity|]. split; [reflexivity|]. split; [reflexivity|].
    split.
    + cbn [reservations set_reservations].
      eapply records_good_same_fields;
        [apply restamp_same_fields|exact Hgood].
    + right. exists rs. split; [exact Hfile|exact Hgood].
Qed.

(** X20: what [main] leaves on disk. Started where the reservations file
    is absent, or holds the listing of records that each have a name that
    is not blank, a passport of exactly nine characters A-Z or 0-9, a known
    flight and a known seat, no two on the same seat of the same flight,
    [main] raises nothing, whatever is typed, and when it returns the
    file is again absent or holds the listing of such records. *)
Theorem main_keeps_file_good (w : World) (con : Console) :
  file_good w ->
  exists w' con', main w con = (Return tt, w', con') /\ file_good w'.
Proof.
  intros Hfile. destruct (init_good w Hfile) as (system & w0 & Hinit & Hgood).
  unfold main. rewrite Hinit.
  pose proof (main_loop_good system w0 con Hgood) as Hend.
  destruct (main_loop system w0 con) as [w1 con1]. cbn [fst] in Hend.
  exists w1, con1. split; [reflexivity|exact Hend].
Qed.

Lemma main_keeps_file_good_witness :
  exists w' con',
    main two_days
      {| stdin := ["1"; "Ann"; "A00000001"; "FL101"; "1A"]; stdout := [] |}
    = (Return tt, w', con')
    /\ file_good w'.
Proof.
  apply (main_keeps_file_good two_days). left. reflexivity.
Defined.



(** X22: one iteration of the menu is at most one operation of the store.
    An iteration that goes on has left the store and the world as they
    were, or has made one successful [book_ticket], one
    [cancel_reservation] or one [search_reservations], on the lines typed
    with their surrounding white space removed; the iteration that ends
    the loop (choice 5 or end of input) leaves the world as it was. *)
Theorem menu_iteration_one_operation
    (system : AirlineSystem) (w w' : World) (con con' : Console)
    (step : LoopStep) :
  menu_iteration system w con = (step, w', con') ->
  match step with
  | Continue system' => store_step system w system' w'
  | Break => w' = w
  end.
Proof.
  intros Hit. apply menu_iteration_effect in Hit.
  destruct step; [exact Hit|]. destruct Hit as [Hw _]. exact Hw.
Qed.

Lemma menu_iteration_one_operation_witness :
  store_step (store_of [bob]) two_days (store_of [])
    (snd (fst (menu_iteration (store_of [bob]) two_days
                 {| stdin := ["2"; " BK20240102030405 "]; stdout := [] |}))).
Proof.
  apply (menu_iteration_one_operation (store_of [bob]) two_days _
           {| stdin := ["2"; " BK20240102030405 "]; stdout := [] |}
           (snd (menu_iteration (store_of [bob]) two_days
                   {| stdin := ["2"; " BK20240102030405 "]; stdout := [] |}))
           (Continue (store_of []))).
  vm_compute. reflexivity.
Defined.

(** X23: the listing and the search results print a record the same way:
    the line the choice 3 prints for the dict of a record is the line the
    choice 4 prints for the record. *)
Theorem listing_line_of_record (r : Passenger) :
  listing_line (to_dict r) = result_line r.
Proof. destruct r. reflexivity. Qed.
